(** * ScanCode JSON results parser: a shallow embedding of
      [parse_scancode_results.py] and the properties of its pipeline.

    Modelling conventions.
    - Python [str] values are byte strings ([String.string]); [str.lower]
      and [str.upper] act on the ASCII letters, and field widths count
      bytes. On strings of ASCII characters this is what Python does; a
      character outside ASCII is left as it is, where Python may change it
      (the Kelvin sign lower-cases to "k", the long s upper-cases to "S")
      and counts it once.
    - The parsed JSON document is typed after the fields the program reads:
      a key that is absent from a JSON object is [None]. Only documents of
      this shape are modelled: a JSON object whose "files", when present,
      is a list of objects with fields of the expected types. On any other
      parsed value (a "files" that is null, a top-level list) the program
      stops with an uncaught [TypeError] or [AttributeError], which the
      model does not describe.
    - Scores are integers ([Z]).
    - A [dict] or [Counter] iterated in insertion order is an association
      list; the six-key category dictionaries are a record with one field
      per key.
    - A Python [set] is the list of its distinct elements in insertion
      order together with an iteration order that the interpreter chooses
      (it depends on the per-process string hash): see [SetOrder]. *)

From Stdlib Require Import ZArith List Bool Ascii String Lia Permutation.
From Stdlib Require Import Numbers.DecimalString Sorting.Sorted.
Import ListNotations.
Open Scope string_scope.
Open Scope list_scope.
Open Scope Z_scope.

(** ** Python built-ins used by the program *)

Module Py.

(** [d.get(k, default)] on a key that may be absent. *)
Definition get_or {A : Type} (o : option A) (default : A) : A :=
  match o with
  | Some v => v
  | None => default
  end.

(** Truth value of a string: non-empty. *)
Definition truthy (s : string) : bool :=
  match s with
  | EmptyString => false
  | String _ _ => true
  end.

(** [d.get(k) or alt] for a string-valued key. *)
Definition get_or_else (o : option string) (alt : string) : string :=
  match o with
  | Some s => if truthy s then s else alt
  | None => alt
  end.

Definition is_upper (c : ascii) : bool :=
  let n := nat_of_ascii c in (Nat.leb 65 n && Nat.leb n 90)%bool.

Definition is_lower (c : ascii) : bool :=
  let n := nat_of_ascii c in (Nat.leb 97 n && Nat.leb n 122)%bool.

Definition lower_char (c : ascii) : ascii :=
  if is_upper c then ascii_of_nat (nat_of_ascii c + 32) else c.

Definition upper_char (c : ascii) : ascii :=
  if is_lower c then ascii_of_nat (nat_of_ascii c - 32) else c.

Fixpoint map_chars (f : ascii -> ascii) (s : string) : string :=
  match s with
  | EmptyString => EmptyString
  | String c s' => String (f c) (map_chars f s')
  end.

(** [s.lower()] and [s.upper()]. *)
Definition lower (s : string) : string := map_chars lower_char s.
Definition upper (s : string) : string := map_chars upper_char s.

(** [s.replace(a, b)] for one-character [a] and [b]. *)
Definition replace_char (a b : ascii) (s : string) : string :=
  map_chars (fun c => if Ascii.eqb c a then b else c) s.

(** [s.startswith(p)]. *)
Fixpoint startswith (p s : string) : bool :=
  match p, s with
  | EmptyString, _ => true
  | String _ _, EmptyString => false
  | String a p', String b s' => (Ascii.eqb a b && startswith p' s')%bool
  end.

(** [p in s] on strings: [p] occurs in [s] as a contiguous substring. *)
Fixpoint str_in (p s : string) : bool :=
  (startswith p s
   || match s with
      | EmptyString => false
      | String _ s' => str_in p s'
      end)%bool.

(** [c * n] for a one-character string. *)
Fixpoint repeat_char (c : ascii) (n : nat) : string :=
  match n with
  | O => EmptyString
  | S n' => String c (repeat_char c n')
  end.

(** [str(n)] for an integer. *)
Definition str_of_Z (z : Z) : string := NilZero.string_of_int (Z.to_int z).
Definition str_of_nat (n : nat) : string := str_of_Z (Z.of_nat n).

(** [max(x :: xs)]: the program only calls [max] on a non-empty list. *)
Definition max (x : Z) (xs : list Z) : Z := fold_left Z.max xs x.

(** Left- and right-justified fields of format specs [{s:30}], [{n:4}];
    the width counts bytes, which are the characters of an ASCII string. *)
Definition ljust (width : nat) (s : string) : string :=
  String.append s (repeat_char " " (width - String.length s)).
Definition rjust (width : nat) (s : string) : string :=
  String.append (repeat_char " " (width - String.length s)) s.

(** An f-string: the concatenation of its literal and formatted parts. *)
Definition fstr (parts : list string) : string := String.concat EmptyString parts.

End Py.

(** ** Data model *)

(** One entry of a detection's [matches]. *)
Record Match := { match_score : option Z }.

(** One entry of [license_detections]. *)
Record Detection := {
  license_expression : option string;
  license_expression_spdx : option string;
  matches : option (list Match)
}.

(** One entry of the legacy [licenses] list. *)
Record LegacyLicense := {
  lic_key : option string;
  lic_name : option string;
  lic_score : option Z
}.

(** One entry of the document's [files]. *)
Record FileRecord := {
  path : option string;
  scan_errors : option (list string);
  detected_license_expression : option string;
  license_detections : option (list Detection);
  licenses : option (list LegacyLicense)
}.

(** The loaded document ([self.data]). *)
Record ScanData := { files : option (list FileRecord) }.

(** The dictionaries [{'key': ..., 'name': ..., 'score': ...}] built by the
    extractor. *)
Record LicenseFinding := { key : string; name : string; score : Z }.

(** ** Finding extractor *)

Definition detection_finding (lic : Detection) : LicenseFinding :=
  let key :=
    Py.get_or_else (license_expression lic)
      (Py.get_or_else (license_expression_spdx lic) "unknown") in
  let score := 100 in
  let score :=
    match matches lic with
    | Some (m :: ms) =>
        Py.max (Py.get_or (match_score m) 100)
               (map (fun m => Py.get_or (match_score m) 100) ms)
    | _ => score
    end in
  {| key := key; name := key; score := score |}.

Definition legacy_finding (lic : LegacyLicense) : LicenseFinding :=
  let key := Py.get_or (lic_key lic) "unknown" in
  let name := Py.get_or (lic_name lic) key in
  let score := Py.get_or (lic_score lic) 100 in
  {| key := key; name := name; score := score |}.

Definition extract_licenses_from_file (file_info : FileRecord)
  : list LicenseFinding :=
  let results := [] in
  let results :=
    match detected_license_expression file_info with
    | Some expr =>
        if Py.truthy expr
        then results ++ [{| key := expr; name := expr; score := 100 |}]
        else results
    | None => results
    end in
  let results :=
    fold_left (fun results lic => results ++ [detection_finding lic])
      (Py.get_or (license_detections file_info) []) results in
  let results :=
    fold_left (fun results lic => results ++ [legacy_finding lic])
      (Py.get_or (licenses file_info) []) results in
  results.

(** ** Issue scanner *)

Inductive IssueType := scan_error | low_confidence_license.

(** The [details] of an issue: the raw [scan_errors] list, or a message. *)
Inductive IssueDetails :=
| RawErrors (errors : list string)
| Message (text : string).

Record Issue := {
  issue_file : string;
  issue_type : IssueType;
  issue_details : IssueDetails
}.

Definition no_files_message : string := "❌ No 'files' section found in JSON".

(** The body of the loop over [self.data['files']]. *)
Definition file_issues (issues : list Issue) (file_info : FileRecord)
  : list Issue :=
  let file_path := Py.get_or (path file_info) "Unknown" in
  let issues :=
    match scan_errors file_info with
    | Some (e :: es) =>
        issues ++ [{| issue_file := file_path;
                      issue_type := scan_error;
                      issue_details := RawErrors (e :: es) |}]
    | _ => issues
    end in
  fold_left
    (fun issues lic =>
       if score lic <? 50
       then issues ++
            [{| issue_file := file_path;
                issue_type := low_confidence_license;
                issue_details :=
                  Message (Py.fstr ["License: "; key lic; ", Score: ";
                                    Py.str_of_Z (score lic)]) |}]
       else issues)
    (extract_licenses_from_file file_info) issues.

(** Returns the lines printed and the issues found. *)
Definition get_files_with_issues (data : ScanData)
  : list string * list Issue :=
  let issues := [] in
  match files data with
  | None => ([no_files_message], issues)
  | Some fs => ([], fold_left file_issues fs issues)
  end.

(** ** License tally *)

(** The dictionaries [{'file': ..., 'name': ..., 'score': ...}]. *)
Record Occurrence := { file : string; occ_name : string; occ_score : Z }.

(** [license_stats]: a [defaultdict(list)], in insertion order. *)
Definition LicenseStats := list (string * list Occurrence).

(** [all_licenses]: a [Counter], in insertion order. *)
Definition Counter := list (string * nat).

(** [license_stats[k].append(v)]. *)
Fixpoint stats_append (k : string) (v : Occurrence) (d : LicenseStats)
  : LicenseStats :=
  match d with
  | [] => [(k, [v])]
  | (k', vs) :: d' =>
      if String.eqb k k' then (k', vs ++ [v]) :: d'
      else (k', vs) :: stats_append k v d'
  end.

(** [all_licenses[k] += 1]. *)
Fixpoint counter_incr (k : string) (c : Counter) : Counter :=
  match c with
  | [] => [(k, 1%nat)]
  | (k', n) :: c' =>
      if String.eqb k k' then (k', S n) :: c'
      else (k', n) :: counter_incr k c'
  end.

Definition _process_license_detection (lic_info : LicenseFinding)
    (file_path : string) (acc : LicenseStats * Counter)
  : LicenseStats * Counter :=
  let '(license_stats, all_licenses) := acc in
  let key := key lic_info in
  let name := name lic_info in
  let score := score lic_info in
  let all_licenses := counter_incr key all_licenses in
  let license_stats :=
    stats_append key
      {| file := file_path; occ_name := name; occ_score := score |}
      license_stats in
  (license_stats, all_licenses).

Definition analyze_licenses (data : ScanData) : LicenseStats * Counter :=
  let acc : LicenseStats * Counter := ([], []) in
  match files data with
  | None => acc
  | Some fs =>
      fold_left
        (fun acc file_info =>
           let file_path := Py.get_or (path file_info) "Unknown" in
           fold_left
             (fun acc lic => _process_license_detection lic file_path acc)
             (extract_licenses_from_file file_info) acc)
        fs acc
  end.

(** ** Problem classifier *)

Inductive Category :=
| copyleft | gpl | agpl | commercial_unfriendly | unknown | low_confidence.

(** A dictionary whose keys are the six categories, in the order in which
    [identify_problematic_licenses] creates them. *)
Record ByCategory (A : Type) := {
  in_copyleft : A;
  in_gpl : A;
  in_agpl : A;
  in_commercial_unfriendly : A;
  in_unknown : A;
  in_low_confidence : A
}.
Arguments in_copyleft {A} _.
Arguments in_gpl {A} _.
Arguments in_agpl {A} _.
Arguments in_commercial_unfriendly {A} _.
Arguments in_unknown {A} _.
Arguments in_low_confidence {A} _.

Definition category_keys : list Category :=
  [copyleft; gpl; agpl; commercial_unfriendly; unknown; low_confidence].

Definition category_name (c : Category) : string :=
  match c with
  | copyleft => "copyleft"
  | gpl => "gpl"
  | agpl => "agpl"
  | commercial_unfriendly => "commercial_unfriendly"
  | unknown => "unknown"
  | low_confidence => "low_confidence"
  end.

(** [d[c]]. *)
Definition at_category {A : Type} (d : ByCategory A) (c : Category) : A :=
  match c with
  | copyleft => in_copyleft d
  | gpl => in_gpl d
  | agpl => in_agpl d
  | commercial_unfriendly => in_commercial_unfriendly d
  | unknown => in_unknown d
  | low_confidence => in_low_confidence d
  end.

(** [d[c] = f(d[c])]. *)
Definition update_category {A : Type} (d : ByCategory A) (c : Category)
    (f : A -> A) : ByCategory A :=
  match c with
  | copyleft =>
      {| in_copyleft := f (in_copyleft d); in_gpl := in_gpl d;
         in_agpl := in_agpl d;
         in_commercial_unfriendly := in_commercial_unfriendly d;
         in_unknown := in_unknown d;
         in_low_confidence := in_low_confidence d |}
  | gpl =>
      {| in_copyleft := in_copyleft d; in_gpl := f (in_gpl d);
         in_agpl := in_agpl d;
         in_commercial_unfriendly := in_commercial_unfriendly d;
         in_unknown := in_unknown d;
         in_low_confidence := in_low_confidence d |}
  | agpl =>
      {| in_copyleft := in_copyleft d; in_gpl := in_gpl d;
         in_agpl := f (in_agpl d);
         in_commercial_unfriendly := in_commercial_unfriendly d;
         in_unknown := in_unknown d;
         in_low_confidence := in_low_confidence d |}
  | commercial_unfriendly =>
      {| in_copyleft := in_copyleft d; in_gpl := in_gpl d;
         in_agpl := in_agpl d;
         in_commercial_unfriendly := f (in_commercial_unfriendly d);
         in_unknown := in_unknown d;
         in_low_confidence := in_low_confidence d |}
  | unknown =>
      {| in_copyleft := in_copyleft d; in_gpl := in_gpl d;
         in_agpl := in_agpl d;
         in_commercial_unfriendly := in_commercial_unfriendly d;
         in_unknown := f (in_unknown d);
         in_low_confidence := in_low_confidence d |}
  | low_confidence =>
      {| in_copyleft := in_copyleft d; in_gpl := in_gpl d;
         in_agpl := in_agpl d;
         in_commercial_unfriendly := in_commercial_unfriendly d;
         in_unknown := in_unknown d;
         in_low_confidence := f (in_low_confidence d) |}
  end.

(** [{key: v for key in problems.keys()}]. *)
Definition all_categories {A : Type} (v : A) : ByCategory A :=
  {| in_copyleft := v; in_gpl := v; in_agpl := v;
     in_commercial_unfriendly := v; in_unknown := v;
     in_low_confidence := v |}.

(** The class constants. *)
Definition GPL_2_0 : string := "gpl-2.0".
Definition GPL_3_0 : string := "gpl-3.0".
Definition AGPL_3_0 : string := "agpl-3.0".
Definition GPL_2_0_PLUS : string := "gpl-2.0-plus".
Definition GPL_3_0_PLUS : string := "gpl-3.0-plus".
Definition LGPL_2_1 : string := "lgpl-2.1".
Definition LGPL_3_0 : string := "lgpl-3.0".
Definition CC_BY_SA_4_0 : string := "cc-by-sa-4.0".

(** [self.problematic_licenses], in the order of its keys. *)
Definition problematic_licenses : list (Category * list string) :=
  [ (gpl, [GPL_2_0; GPL_3_0; GPL_2_0_PLUS; GPL_3_0_PLUS]);
    (agpl, [AGPL_3_0; GPL_3_0_PLUS]);
    (copyleft, [GPL_2_0; GPL_3_0; LGPL_2_1; LGPL_3_0; AGPL_3_0]);
    (commercial_unfriendly, [GPL_2_0; GPL_3_0; AGPL_3_0; CC_BY_SA_4_0]);
    (unknown, ["unknown"; "other-permissive"; "other-copyleft";
               "unknown-license-reference"]) ].

(** The tuples [(file_path, license_key, score)]. *)
Definition Triple : Type := string * string * Z.

Definition triple_eqb (a b : Triple) : bool :=
  let '(f1, k1, s1) := a in
  let '(f2, k2, s2) := b in
  (String.eqb f1 f2 && String.eqb k1 k2 && Z.eqb s1 s2)%bool.

(** A [set] of tuples: its distinct elements, in the order of their first
    insertion. *)
Definition TripleSet : Type := list Triple.

(** [s.add(t)]. *)
Definition set_add (t : Triple) (s : TripleSet) : TripleSet :=
  if existsb (triple_eqb t) s then s else s ++ [t].

(** The order in which [for x in s] visits a set. Python leaves it
    unspecified: in CPython it follows the hashes of the elements, and the
    hash of a string changes from one interpreter process to the next. All
    the program may rely on is that every element is visited once. *)
Record SetOrder := {
  set_iter : TripleSet -> list Triple;
  set_iter_perm : forall s, Permutation (set_iter s) s
}.

Definition _add_to_problem_sets (problem_sets : ByCategory TripleSet)
    (license_key file_path : string) (score : Z) : ByCategory TripleSet :=
  let problem_sets :=
    fold_left
      (fun problem_sets (item : Category * list string) =>
         let '(category, license_list) := item in
         if existsb
              (fun problem_license =>
                 Py.str_in problem_license (Py.lower license_key))
              license_list
         then update_category problem_sets category
                (set_add (file_path, license_key, score))
         else problem_sets)
      problematic_licenses problem_sets in
  if score <? 70
  then update_category problem_sets low_confidence
         (set_add (file_path, license_key, score))
  else problem_sets.

Definition _convert_problem_sets_to_list (order : SetOrder)
    (problem_sets : ByCategory TripleSet) : ByCategory (list Occurrence) :=
  let problems := all_categories [] in
  fold_left
    (fun problems category =>
       fold_left
         (fun problems (item : Triple) =>
            let '(file_path, license_key, score) := item in
            update_category problems category
              (fun l => l ++ [{| file := file_path;
                                 occ_name := license_key;
                                 occ_score := score |}]))
         (set_iter order (at_category problem_sets category)) problems)
    category_keys problems.

Definition identify_problematic_licenses (order : SetOrder)
    (license_stats : LicenseStats) : ByCategory (list Occurrence) :=
  let problem_sets := all_categories ([] : TripleSet) in
  let problem_sets :=
    fold_left
      (fun problem_sets (item : string * list Occurrence) =>
         let '(license_key, file_detections) := item in
         fold_left
           (fun problem_sets detection_info =>
              let file_path := file detection_info in
              let score := occ_score detection_info in
              _add_to_problem_sets problem_sets license_key file_path score)
           file_detections problem_sets)
      license_stats problem_sets in
  _convert_problem_sets_to_list order problem_sets.

(** ** Recommendations *)

Inductive Severity := high | critical | medium.

Record Recommendation := {
  severity : Severity;
  rec_category : string;
  message : string;
  affected_files : nat
}.

(** Truth value of a list: non-empty. *)
Definition nonempty {A : Type} (l : list A) : bool :=
  match l with
  | [] => false
  | _ :: _ => true
  end.

Definition generate_recommendations (problems : ByCategory (list Occurrence))
  : list Recommendation :=
  let recommendations := [] in
  let recommendations :=
    if nonempty (at_category problems gpl)
    then recommendations ++
         [{| severity := high;
             rec_category := "gpl";
             message := "GPL licenses detected. Review compatibility with your project license.";
             affected_files := List.length (at_category problems gpl) |}]
    else recommendations in
  let recommendations :=
    if nonempty (at_category problems agpl)
    then recommendations ++
         [{| severity := critical;
             rec_category := "agpl";
             message := "AGPL licenses detected. Network copyleft requirements apply.";
             affected_files := List.length (at_category problems agpl) |}]
    else recommendations in
  let recommendations :=
    if nonempty (at_category problems unknown)
    then recommendations ++
         [{| severity := medium;
             rec_category := "unknown";
             message := "Unknown licenses detected. Manual review required.";
             affected_files := List.length (at_category problems unknown) |}]
    else recommendations in
  recommendations.

(** ** Report renderer

    Every printing method returns the texts of its [print] calls, in
    order. *)

Definition newline : string := String (ascii_of_nat 10) EmptyString.

Definition count_type (t : IssueType) (issues : list Issue) : nat :=
  List.length
    (filter (fun i => match issue_type i, t with
                      | scan_error, scan_error => true
                      | low_confidence_license, low_confidence_license => true
                      | _, _ => false
                      end) issues).

(** [len(self.data.get('files', []) if self.data else [])]. *)
Definition total_files (data : ScanData) : nat :=
  List.length (Py.get_or (files data) []).

Definition _print_basic_statistics (data : ScanData) (issues : list Issue)
  : list string :=
  let total_files := total_files data in
  ["📊 BASIC STATISTICS";
   Py.fstr ["   Total files scanned: "; Py.str_of_nat total_files]]
  ++ (if nonempty issues
      then [Py.fstr ["   Files with scan errors: ";
                     Py.str_of_nat (count_type scan_error issues)];
            Py.fstr ["   Files with low confidence licenses: ";
                     Py.str_of_nat
                       (count_type low_confidence_license issues)]]
      else [])
  ++ [EmptyString].

(** [sorted(items, key=count, reverse=True)], a stable sort. *)
Fixpoint insert_by_count (x : string * nat) (l : Counter) : Counter :=
  match l with
  | [] => [x]
  | y :: l' =>
      if Nat.ltb (snd x) (snd y) then y :: insert_by_count x l'
      else x :: y :: l'
  end.

(** [all_licenses.most_common(n)]. *)
Definition most_common (n : nat) (c : Counter) : Counter :=
  firstn n (fold_right insert_by_count [] c).

(** [sum(all_licenses.values())]. *)
Definition counter_total (c : Counter) : nat :=
  fold_left (fun acc kv => (acc + snd kv)%nat) c 0%nat.

Definition _print_license_summary (all_licenses : Counter) : list string :=
  ["📋 LICENSE SUMMARY";
   Py.fstr ["   Unique licenses detected: ";
            Py.str_of_nat (List.length all_licenses)];
   Py.fstr ["   Total license detections: ";
            Py.str_of_nat (counter_total all_licenses)];
   EmptyString;
   "🏆 TOP 10 MOST COMMON LICENSES"]
  ++ map (fun kv : string * nat =>
            let '(license_key, count) := kv in
            Py.fstr ["   "; Py.ljust 30 license_key; " : ";
                     Py.rjust 4 (Py.str_of_nat count); " files"])
         (most_common 10 all_licenses)
  ++ [EmptyString].

(** The header line of one category in the problem listing. *)
Definition category_header (category : Category) (count : nat) : string :=
  Py.fstr [newline; "   🚨 ";
           Py.replace_char "_" " " (Py.upper (category_name category));
           " LICENSES ("; Py.str_of_nat count; " files):"].

(** The two lines printed for one example of a category. *)
Definition example_lines (issue : Occurrence) : list string :=
  [Py.fstr ["      - "; file issue];
   Py.fstr ["        License: "; occ_name issue; " (Score: ";
            Py.str_of_Z (occ_score issue); ")"]].

(** The truncation note. *)
Definition more_files_note (n : nat) : string :=
  Py.fstr ["      ... and "; Py.str_of_nat n; " more files"].

(** The lines of one category in the problem listing. *)
Definition category_listing (category : Category)
    (issue_list : list Occurrence) : list string :=
  if nonempty issue_list
  then [category_header category (List.length issue_list)]
       ++ flat_map example_lines (firstn 5 issue_list)
       ++ (if Nat.ltb 5 (List.length issue_list)
           then [more_files_note (List.length issue_list - 5)]
           else [])
  else [].

Definition no_issues_message : string :=
  "   ✅ No major license issues detected!".

Definition _print_potential_issues (problems : ByCategory (list Occurrence))
  : list string :=
  let total_issues :=
    fold_left (fun acc c => (acc + List.length (at_category problems c))%nat)
      category_keys 0%nat in
  ["⚠️  POTENTIAL LICENSE ISSUES"; Py.repeat_char "-" 40]
  ++ (if Nat.eqb total_issues 0
      then [no_issues_message]
      else flat_map
             (fun category =>
                category_listing category (at_category problems category))
             category_keys)
  ++ [EmptyString].

Definition _print_recommendations (problems : ByCategory (list Occurrence))
  : list string :=
  let gpl_files := List.length (at_category problems gpl) in
  let agpl_files := List.length (at_category problems agpl) in
  let unknown_files := List.length (at_category problems unknown) in
  let low_confidence := List.length (at_category problems low_confidence) in
  ["💡 RECOMMENDATIONS"; Py.repeat_char "-" 40]
  ++ (if Nat.ltb 0 gpl_files
      then [Py.fstr ["   🔴 "; Py.str_of_nat gpl_files;
                     " files with GPL licenses detected"];
            "      - Review if GPL compatibility is acceptable for your project";
            "      - Consider alternative implementations for critical files"]
      else [])
  ++ (if Nat.ltb 0 agpl_files
      then [Py.fstr ["   🔴 "; Py.str_of_nat agpl_files;
                     " files with AGPL licenses detected"];
            "      - AGPL has network copyleft requirements";
            "      - Avoid AGPL code in web services/SaaS applications"]
      else [])
  ++ (if Nat.ltb 0 unknown_files
      then [Py.fstr ["   🟡 "; Py.str_of_nat unknown_files;
                     " files with unknown/unclear licenses"];
            "      - Manual review required for these files";
            "      - Contact original authors for clarification"]
      else [])
  ++ (if Nat.ltb 0 low_confidence
      then [Py.fstr ["   🟡 "; Py.str_of_nat low_confidence;
                     " files with low confidence license detection"];
            "      - Manual verification recommended";
            "      - Check original source for accurate license information"]
      else [])
  ++ [Py.fstr [newline; Py.repeat_char "=" 80]].

(** ** Detailed export *)

Record Metadata := {
  source_file : string;
  analysis_date : string;
  meta_total_files : nat;
  total_licenses : nat;
  total_license_detections : nat
}.

Record DetailedReport := {
  metadata : Metadata;
  license_statistics : Counter;
  report_problematic_licenses : ByCategory (list Occurrence);
  scan_issues : list Issue;
  recommendations : list Recommendation
}.

Definition default_output_file : string := "license_analysis_detailed.json".

(** ** The process: file system, standard output, exit status *)

(** What a run of the interpreter sees and changes. [clock n] is the time
    that the [n]-th call of [datetime.now()] reads and [clock_reads] counts
    the calls made so far; [hash_order] is the iteration order of sets in
    this process. *)
Record World := {
  fs : string -> option string;
  stdout : list string;
  clock : nat -> Z;
  clock_reads : nat;
  hash_order : SetOrder
}.

(** A computation either returns or leaves through [sys.exit]. *)
Inductive Outcome (A : Type) :=
| Returned (a : A)
| Exited (status : Z).
Arguments Returned {A} a.
Arguments Exited {A} status.

Definition Run (A : Type) : Type := World -> Outcome A * World.

Definition ret {A : Type} (a : A) : Run A := fun w => (Returned a, w).

Definition bind {A B : Type} (m : Run A) (k : A -> Run B) : Run B :=
  fun w =>
    match m w with
    | (Returned a, w') => k a w'
    | (Exited status, w') => (Exited status, w')
    end.

Notation "x <- m ;; k" := (bind m (fun x => k))
  (at level 61, m at next level, right associativity).
Notation "m ;;; k" := (bind m (fun _ => k))
  (at level 61, right associativity).

Definition sys_exit {A : Type} (status : Z) : Run A :=
  fun w => (Exited status, w).

Definition print_all (texts : list string) : Run unit :=
  fun w =>
    (Returned tt,
     {| fs := fs w; stdout := stdout w ++ texts;
        clock := clock w; clock_reads := clock_reads w;
        hash_order := hash_order w |}).

Definition print (text : string) : Run unit := print_all [text].

(** [os.path.exists(p)]. *)
Definition path_exists (p : string) : Run bool :=
  fun w => (Returned (match fs w p with Some _ => true | None => false end),
            w).

(** [open(p, 'r').read()]; [None] stands for [FileNotFoundError]. *)
Definition read_file (p : string) : Run (option string) :=
  fun w => (Returned (fs w p), w).

(** [open(p, 'w').write(content)]. *)
Definition write_file (p content : string) : Run unit :=
  fun w =>
    (Returned tt,
     {| fs := fun q => if String.eqb q p then Some content else fs w q;
        stdout := stdout w; clock := clock w;
        clock_reads := clock_reads w;
        hash_order := hash_order w |}).

(** [datetime.now()]. *)
Definition now : Run Z :=
  fun w =>
    (Returned (clock w (clock_reads w)),
     {| fs := fs w; stdout := stdout w; clock := clock w;
        clock_reads := S (clock_reads w);
        hash_order := hash_order w |}).

Definition set_order : Run SetOrder := fun w => (Returned (hash_order w), w).

(** The exit status of the process. *)
Definition exit_status {A : Type} (o : Outcome A) : Z :=
  match o with
  | Returned _ => 0
  | Exited status => status
  end.

(** The analyzer object after [__init__]. *)
Record ScanCodeAnalyzer := { json_file : string; data : ScanData }.

Section Runtime.

(** Library functions that the program calls and does not define. *)

(** [json.load]: the parsed document, or the text of the
    [JSONDecodeError]. *)
Variable json_load : string -> string + ScanData.
(** [json.dumps(report, indent=2, ensure_ascii=False)]. *)
Variable json_dump : DetailedReport -> string.
(** [str] of a list of strings. *)
Variable repr_list : list string -> string.
(** [t.strftime('%Y-%m-%d %H:%M:%S')] and [t.isoformat()]. *)
Variable strftime : Z -> string.
Variable isoformat : Z -> string.

Definition load_data (json_file : string) : Run ScanData :=
  content <- read_file json_file ;;
  match content with
  | None =>
      print (Py.fstr ["❌ Error: File "; json_file; " not found"]) ;;;
      sys_exit 1
  | Some text =>
      match json_load text with
      | inl e =>
          print (Py.fstr ["❌ Error parsing JSON: "; e]) ;;;
          sys_exit 1
      | inr data =>
          print (Py.fstr ["✅ Successfully loaded "; json_file]) ;;;
          ret data
      end
  end.

Definition init (json_file : string) : Run ScanCodeAnalyzer :=
  data <- load_data json_file ;;
  ret {| json_file := json_file; data := data |}.

Definition _print_report_header (self : ScanCodeAnalyzer) : Run unit :=
  print (Py.repeat_char "=" 80) ;;;
  print "🔍 SCANCODE LICENSE ANALYSIS REPORT" ;;;
  print (Py.repeat_char "=" 80) ;;;
  print (Py.fstr ["📁 Analyzed file: "; json_file self]) ;;;
  t <- now ;;
  print (Py.fstr ["📅 Generated on: "; strftime t]) ;;;
  print EmptyString.

Definition details_text (d : IssueDetails) : string :=
  match d with
  | RawErrors errors => repr_list errors
  | Message text => text
  end.

Definition _print_scan_errors (issues : list Issue) : list string :=
  let scan_errors :=
    filter (fun i => match issue_type i with
                     | scan_error => true
                     | low_confidence_license => false
                     end) issues in
  if nonempty scan_errors
  then ["❌ FILES WITH SCAN ERRORS"; Py.repeat_char "-" 40]
       ++ flat_map
            (fun error =>
               [Py.fstr ["   "; issue_file error];
                Py.fstr ["   Error: ";
                         details_text (issue_details error)];
                EmptyString])
            (firstn 10 scan_errors)
  else [].

Definition generate_report (self : ScanCodeAnalyzer) : Run unit :=
  _print_report_header self ;;;
  let '(printed, issues) := get_files_with_issues (data self) in
  print_all printed ;;;
  print_all (_print_basic_statistics (data self) issues) ;;;
  let '(license_stats, all_licenses) := analyze_licenses (data self) in
  print_all (_print_license_summary all_licenses) ;;;
  order <- set_order ;;
  let problems := identify_problematic_licenses order license_stats in
  print_all (_print_potential_issues problems) ;;;
  print_all (_print_scan_errors issues) ;;;
  print_all (_print_recommendations problems).

(** The dictionary that [export_detailed_report] serialises. *)
Definition detailed_report (self : ScanCodeAnalyzer) (order : SetOrder)
    (t : Z) : DetailedReport :=
  let '(license_stats, all_licenses) := analyze_licenses (data self) in
  let problems := identify_problematic_licenses order license_stats in
  let issues := snd (get_files_with_issues (data self)) in
  {| metadata :=
       {| source_file := json_file self;
          analysis_date := isoformat t;
          meta_total_files := total_files (data self);
          total_licenses := List.length all_licenses;
          total_license_detections := counter_total all_licenses |};
     license_statistics := all_licenses;
     report_problematic_licenses := problems;
     scan_issues := issues;
     recommendations := generate_recommendations problems |}.

Definition export_detailed_report (self : ScanCodeAnalyzer)
    (output_file : string) : Run unit :=
  order <- set_order ;;
  print_all (fst (get_files_with_issues (data self))) ;;;
  t <- now ;;
  write_file output_file (json_dump (detailed_report self order t)) ;;;
  print (Py.fstr ["📄 Detailed report exported to: "; output_file]).

Definition main (argv : list string) : Run unit :=
  if negb (Nat.eqb (List.length argv) 2)
  then
    print "Usage: python parse_scancode_results.py <scancode_results.json>" ;;;
    print (Py.fstr [newline; "Example:"]) ;;;
    print "python parse_scancode_results.py hwid_go_server_analysis.json" ;;;
    sys_exit 1
  else
    let json_file := nth 1 argv EmptyString in
    found <- path_exists json_file ;;
    if negb found
    then
      print (Py.fstr ["❌ Error: File "; json_file; " does not exist"]) ;;;
      sys_exit 1
    else
      analyzer <- init json_file ;;
      generate_report analyzer ;;;
      export_detailed_report analyzer default_output_file.

End Runtime.

(** ** Notions used to state the properties *)

Definition category_eq_dec (a b : Category) : {a = b} + {a <> b}.
Proof. decide equality. Defined.

(** The fragments that [self.problematic_licenses] lists for a category
    (none for [low_confidence], which is not one of its keys). *)
Definition category_fragments (c : Category) : list string :=
  flat_map
    (fun item : Category * list string =>
       if category_eq_dec (fst item) c then snd item else [])
    problematic_licenses.

(** Some fragment of the category occurs in the lower-cased key. *)
Definition key_matches (c : Category) (license_key : string) : bool :=
  existsb (fun fragment => Py.str_in fragment (Py.lower license_key))
    (category_fragments c).

(** The condition under which [_add_to_problem_sets] adds the tuple to the
    set of a category. *)
Definition classified (c : Category) (license_key : string) (score : Z)
  : bool :=
  (key_matches c license_key
   || match c with
      | low_confidence => score <? 70
      | _ => false
      end)%bool.

(** The dictionary that [_convert_problem_sets_to_list] builds from a
    tuple. *)
Definition occurrence_of_triple (t : Triple) : Occurrence :=
  let '(file_path, license_key, score) := t in
  {| file := file_path; occ_name := license_key; occ_score := score |}.

(** The loop of [identify_problematic_licenses] over the tally. *)
Definition problem_sets_of (license_stats : LicenseStats)
    (problem_sets : ByCategory TripleSet) : ByCategory TripleSet :=
  fold_left
    (fun problem_sets (item : string * list Occurrence) =>
       let '(license_key, file_detections) := item in
       fold_left
         (fun problem_sets detection_info =>
            _add_to_problem_sets problem_sets license_key
              (file detection_info) (occ_score detection_info))
         file_detections problem_sets)
    license_stats problem_sets.

(** [occ] is one of the occurrences recorded under [k]. *)
Definition In_stats (k : string) (occ : Occurrence) (d : LicenseStats)
  : Prop :=
  exists occs, In (k, occs) d /\ In occ occs.

(** The recommendation that [generate_recommendations] emits for a
    category. *)
Definition recommendation_for (severity : Severity) (category : string)
    (message : string) (problem_list : list Occurrence)
  : list Recommendation :=
  match problem_list with
  | [] => []
  | _ :: _ =>
      [{| severity := severity; rec_category := category;
          message := message;
          affected_files := List.length problem_list |}]
  end.


(** The issue that [get_files_with_issues] appends for a finding of low
    score. *)
Definition low_confidence_issue (file_path : string) (lic : LicenseFinding)
  : Issue :=
  {| issue_file := file_path;
     issue_type := low_confidence_license;
     issue_details :=
       Message (Py.fstr ["License: "; key lic; ", Score: ";
                         Py.str_of_Z (score lic)]) |}.

(** The issue that [get_files_with_issues] appends for the scan errors of a
    file. *)
Definition scan_error_issues (file_info : FileRecord) : list Issue :=
  match scan_errors file_info with
  | Some (e :: es) =>
      [{| issue_file := Py.get_or (path file_info) "Unknown";
          issue_type := scan_error;
          issue_details := RawErrors (e :: es) |}]
  | _ => []
  end.

Definition is_low_confidence_issue (i : Issue) : bool :=
  match issue_type i with
  | low_confidence_license => true
  | scan_error => false
  end.

(** The number of distinct files named by the entries of a problem list. *)
Definition distinct_files (problem_list : list Occurrence) : nat :=
  List.length (nodup string_dec (map file problem_list)).

(** Two iteration orders that an interpreter may show: the order of
    insertion, and its reverse. *)
Definition insertion_order : SetOrder :=
  {| set_iter := fun s => s;
     set_iter_perm := fun s => Permutation_refl s |}.

Definition reversed_order : SetOrder :=
  {| set_iter := fun s => rev s;
     set_iter_perm := fun s => Permutation_sym (Permutation_rev s) |}.

(** A document with one file that carries two GPL licenses. *)
Definition two_gpl_licenses : ScanData :=
  {| files :=
       Some [{| path := Some "a.c"; scan_errors := None;
                detected_license_expression := None;
                license_detections := None;
                licenses :=
                  Some [{| lic_key := Some "gpl-2.0"; lic_name := None;
                           lic_score := Some 100 |};
                        {| lic_key := Some "gpl-3.0"; lic_name := None;
                           lic_score := Some 100 |}] |}] |}.

(** A document with one file whose only finding is "mit" with score 65. *)
Definition mit_score_65 : ScanData :=
  {| files :=
       Some [{| path := Some "a.c"; scan_errors := None;
                detected_license_expression := None;
                license_detections := None;
                licenses :=
                  Some [{| lic_key := Some "mit"; lic_name := None;
                           lic_score := Some 65 |}] |}] |}.

(** A JSON text whose [files] list is empty, a parser that knows it, and two
    worlds: one without any file, one that holds the text. *)
Definition double_quote : string := String (ascii_of_nat 34) EmptyString.

Definition empty_files_text : string :=
  Py.fstr ["{"; double_quote; "files"; double_quote; ": []}"].

Definition sample_json_load (text : string) : string + ScanData :=
  if String.eqb text empty_files_text
  then inr {| files := Some [] |}
  else inl "Expecting value: line 1 column 1 (char 0)".

Definition sample_json_dump (report : DetailedReport) : string := "{}".

Definition sample_repr_list (l : list string) : string :=
  Py.fstr ["["; String.concat ", " l; "]"].

Definition sample_strftime (t : Z) : string := "1970-01-01 00:00:00".

Definition sample_isoformat (t : Z) : string := "1970-01-01T00:00:00".

Definition missing_input_world : World :=
  {| fs := fun _ => None; stdout := []; clock := fun n => Z.of_nat n;
     clock_reads := 0; hash_order := insertion_order |}.

Definition empty_files_world : World :=
  {| fs := fun p => if String.eqb p "scan.json"
                    then Some empty_files_text else None;
     stdout := []; clock := fun n => Z.of_nat n; clock_reads := 0;
     hash_order := insertion_order |}.

(** Runs the program as far as the next value that is not known. *)
Ltac run_step :=
  cbv beta iota zeta
    delta [main init load_data generate_report export_detailed_report
           detailed_report _print_report_header bind path_exists read_file
           set_order now print print_all write_file ret sys_exit
           get_files_with_issues analyze_licenses fold_left
           negb Nat.eqb List.length nth];
  cbn [fst snd stdout fs clock clock_reads hash_order data json_file
       files].


(** ** Further notions: look-ups and the findings of a document *)

(** [all_licenses[k]]: a [Counter] gives 0 for a key it does not hold. *)
Fixpoint counter_get (k : string) (c : Counter) : nat :=
  match c with
  | [] => 0%nat
  | (k', n) :: c' => if String.eqb k k' then n else counter_get k c'
  end.

(** [license_stats[k]]: a [defaultdict(list)] gives [[]] for a key it does
    not hold. *)
Fixpoint stats_get (k : string) (d : LicenseStats) : list Occurrence :=
  match d with
  | [] => []
  | (k', vs) :: d' => if String.eqb k k' then vs else stats_get k d'
  end.

(** The findings of a document, each with the path of its file, in the
    order in which the loops of [analyze_licenses] and
    [get_files_with_issues] visit them. *)
Definition all_findings (data : ScanData)
  : list (string * LicenseFinding) :=
  flat_map
    (fun file_info =>
       map (pair (Py.get_or (path file_info) "Unknown"))
           (extract_licenses_from_file file_info))
    (Py.get_or (files data) []).

(** The occurrence that [_process_license_detection] records. *)
Definition occurrence_of_finding (pf : string * LicenseFinding)
  : Occurrence :=
  {| file := fst pf; occ_name := name (snd pf); occ_score := score (snd pf) |}.

Definition has_key (k : string) (pf : string * LicenseFinding) : bool :=
  String.eqb (key (snd pf)) k.



(** [self.permissive_licenses], which [__init__] sets. *)
Definition permissive_licenses : list string :=
  ["mit"; "apache-2.0"; "bsd-2-clause"; "bsd-3-clause"; "isc";
   "cc0-1.0"; "unlicense"; "wtfpl"; "boost-1.0"].

(** [s.isascii()]: every character of [s] is below 128. *)
Fixpoint is_ascii (s : string) : bool :=
  match s with
  | EmptyString => true
  | String c s' => (Nat.ltb (nat_of_ascii c) 128 && is_ascii s')%bool
  end.


Definition no_files_json_load (text : string) : string + ScanData :=
  if String.eqb text "{}"
  then inr {| files := None |}
  else inl "Expecting value: line 1 column 1 (char 0)".

Definition no_files_world : World :=
  {| fs := fun p => if String.eqb p "scan.json" then Some "{}" else None;
     stdout := []; clock := fun n => Z.of_nat n; clock_reads := 0;
     hash_order := insertion_order |}.


(** * Properties *)

(** ** Strings *)

Lemma startswith_app (p s : string) :
  Py.startswith p s = true <-> exists r, s = String.append p r.
Proof.
  revert s; induction p as [|a p IH]; intros s; simpl.
  - split; [intros _; now exists s | reflexivity].
  - destruct s as [|b s].
    + split; [discriminate | intros [r Hr]; discriminate].
    + rewrite andb_true_iff, Ascii.eqb_eq, IH. split.
      * intros [-> [r ->]]. now exists r.
      * intros [r Hr]. injection Hr as -> ->. split; [reflexivity|].
        now exists r.
Qed.

Lemma append_assoc (a b c : string) :
  String.append (String.append a b) c = String.append a (String.append b c).
Proof. induction a as [|x a IH]; simpl; [reflexivity | now rewrite IH]. Qed.

(** [Py.str_in] is the substring relation. *)
Lemma str_in_spec (p s : string) :
  Py.str_in p s = true <->
  exists l r, s = String.append l (String.append p r).
Proof.
  induction s as [|b s IH].
  - simpl. rewrite orb_false_r, startswith_app. split.
    + intros [r Hr]. now exists EmptyString, r.
    + intros [l [r H]]. destruct l; [now exists r | discriminate].
  - cbn [Py.str_in]. rewrite orb_true_iff, startswith_app, IH. split.
    + intros [[r Hr] | [l [r H]]].
      * now exists EmptyString, r.
      * exists (String b l), r. simpl. now rewrite H.
    + intros [l [r H]]. destruct l as [|x l].
      * left. now exists r.
      * right. injection H as _ H. now exists l, r.
Qed.

Lemma str_in_trans (a b s : string) :
  Py.str_in a b = true -> Py.str_in b s = true -> Py.str_in a s = true.
Proof.
  rewrite !str_in_spec. intros [l1 [r1 H1]] [l2 [r2 H2]].
  exists (String.append l2 l1), (String.append r1 r2).
  rewrite H2, H1. now rewrite !append_assoc.
Qed.

(** ** Finding extractor *)

Lemma fold_left_snoc {A B : Type} (f : A -> B) (l : list A) (acc : list B) :
  fold_left (fun acc x => acc ++ [f x]) l acc = acc ++ map f l.
Proof.
  revert acc; induction l as [|x l IH]; intros acc; simpl.
  - now rewrite app_nil_r.
  - now rewrite IH, <- app_assoc.
Qed.

Lemma extract_licenses_from_file_eq (file_info : FileRecord) :
  extract_licenses_from_file file_info =
  (match detected_license_expression file_info with
   | Some expr =>
       if Py.truthy expr
       then [{| key := expr; name := expr; score := 100 |}]
       else []
   | None => []
   end)
  ++ map detection_finding (Py.get_or (license_detections file_info) [])
  ++ map legacy_finding (Py.get_or (licenses file_info) []).
Proof.
  unfold extract_licenses_from_file.
  rewrite !fold_left_snoc, <- app_assoc.
  destruct (detected_license_expression file_info) as [expr|];
    [destruct (Py.truthy expr)|]; reflexivity.
Qed.

(** C3. The extractor returns, in this order, the finding of the top-level
    expression (score 100, only when the string is present and non-empty),
    one finding per detection object and one finding per legacy license
    object; nothing is dropped or merged, so the number of findings is the
    sum of the three; a record without license fields gives the empty
    list. *)
Theorem C3_extract_concatenates_three_shapes :
  (forall file_info : FileRecord,
     let from_expression :=
       match detected_license_expression file_info with
       | Some expr =>
           if String.eqb expr EmptyString
           then []
           else [{| key := expr; name := expr; score := 100 |}]
       | None => []
       end in
     let detections := Py.get_or (license_detections file_info) [] in
     let legacy := Py.get_or (licenses file_info) [] in
     extract_licenses_from_file file_info =
       from_expression ++ map detection_finding detections
                       ++ map legacy_finding legacy
     /\ List.length (extract_licenses_from_file file_info) =
        (List.length from_expression + List.length detections
         + List.length legacy)%nat)
  /\ (forall p errors,
        extract_licenses_from_file
          {| path := p; scan_errors := errors;
             detected_license_expression := None;
             license_detections := None;
             licenses := None |} = []).
Proof.
  split.
  - intros file_info from_expression detections legacy.
    assert (E : extract_licenses_from_file file_info =
                from_expression ++ map detection_finding detections
                                ++ map legacy_finding legacy).
    { rewrite extract_licenses_from_file_eq. subst from_expression.
      destruct (detected_license_expression file_info) as [[|c expr]|];
        reflexivity. }
    split; [exact E|].
    rewrite E, !length_app, !length_map. lia.
  - reflexivity.
Qed.

(** The same key found in two shapes is reported twice. *)
Example extract_keeps_duplicates :
  extract_licenses_from_file
    {| path := Some "a.c"; scan_errors := None;
       detected_license_expression := Some "mit";
       license_detections := None;
       licenses := Some [{| lic_key := Some "mit"; lic_name := None;
                            lic_score := None |}] |}
  = [{| key := "mit"; name := "mit"; score := 100 |};
     {| key := "mit"; name := "mit"; score := 100 |}].
Proof. reflexivity. Qed.

(** ** Score of a detection *)

Lemma max_upper_bound (xs : list Z) (x : Z) :
  x <= Py.max x xs /\ Forall (fun y => y <= Py.max x xs) xs.
Proof.
  unfold Py.max. revert x; induction xs as [|y xs IH]; intros x; simpl.
  - split; [lia | constructor].
  - destruct (IH (Z.max x y)) as [H1 H2]. split; [lia|].
    constructor; [lia | exact H2].
Qed.

Lemma max_attained (xs : list Z) (x : Z) : In (Py.max x xs) (x :: xs).
Proof.
  unfold Py.max. revert x; induction xs as [|y xs IH]; intros x; simpl.
  - now left.
  - destruct (IH (Z.max x y)) as [H | H].
    + destruct (Z.max_spec x y) as [[_ E] | [_ E]]; rewrite E in *;
        rewrite <- H; auto.
    + auto.
Qed.

(** C4. The score of the finding of a detection object is the greatest of
    the scores of its [matches] entries, an entry without a score counting
    as 100; it is 100 when [matches] is absent or empty. *)
Theorem C4_detection_score_is_max_of_matches :
  (forall expr spdx (m : Match) (ms : list Match),
     let lic := {| license_expression := expr;
                   license_expression_spdx := spdx;
                   matches := Some (m :: ms) |} in
     let scores := map (fun m => Py.get_or (match_score m) 100) (m :: ms) in
     In (score (detection_finding lic)) scores
     /\ Forall (fun s => s <= score (detection_finding lic)) scores)
  /\ (forall expr spdx,
        score (detection_finding
                 {| license_expression := expr;
                    license_expression_spdx := spdx;
                    matches := None |}) = 100
        /\ score (detection_finding
                    {| license_expression := expr;
                       license_expression_spdx := spdx;
                       matches := Some [] |}) = 100)
  /\ (forall expr spdx,
        score (detection_finding
                 {| license_expression := expr;
                    license_expression_spdx := spdx;
                    matches := Some [{| match_score := Some 40 |};
                                     {| match_score := Some 90 |}] |}) = 90).
Proof.
  split; [|split].
  - intros expr spdx m ms lic scores. subst lic scores.
    unfold detection_finding; cbn [matches score map].
    pose proof (max_upper_bound
                  (map (fun m => Py.get_or (match_score m) 100) ms)
                  (Py.get_or (match_score m) 100)) as [H1 H2].
    split.
    + apply max_attained.
    + now constructor.
  - intros; split; reflexivity.
  - reflexivity.
Qed.

(** ** Recommendations *)

Lemma generate_recommendations_eq
    (problems : ByCategory (list Occurrence)) :
  generate_recommendations problems =
    recommendation_for high "gpl"
      "GPL licenses detected. Review compatibility with your project license."
      (at_category problems gpl)
    ++ recommendation_for critical "agpl"
      "AGPL licenses detected. Network copyleft requirements apply."
      (at_category problems agpl)
    ++ recommendation_for medium "unknown"
      "Unknown licenses detected. Manual review required."
      (at_category problems unknown).
Proof.
  unfold generate_recommendations, recommendation_for.
  destruct (at_category problems gpl), (at_category problems agpl),
    (at_category problems unknown); reflexivity.
Qed.


(** ** Category dictionaries and sets *)

Lemma at_update_category {A : Type} (d : ByCategory A) (c c' : Category)
    (f : A -> A) :
  at_category (update_category d c f) c' =
  if category_eq_dec c c' then f (at_category d c) else at_category d c'.
Proof. destruct c, c'; reflexivity. Qed.

Lemma at_all_categories {A : Type} (v : A) (c : Category) :
  at_category (all_categories v) c = v.
Proof. destruct c; reflexivity. Qed.

Lemma triple_eqb_eq (a b : Triple) : triple_eqb a b = true <-> a = b.
Proof.
  destruct a as [[f1 k1] s1], b as [[f2 k2] s2]. unfold triple_eqb.
  rewrite !andb_true_iff, !String.eqb_eq, Z.eqb_eq. split.
  - intros [[-> ->] ->]. reflexivity.
  - intros H. injection H as -> -> ->. auto.
Qed.

Lemma existsb_triple_eqb (t : Triple) (s : TripleSet) :
  existsb (triple_eqb t) s = true <-> In t s.
Proof.
  rewrite existsb_exists. split.
  - intros [x [Hx E]]. apply triple_eqb_eq in E. now subst.
  - intros H. exists t. split; [exact H | now apply triple_eqb_eq].
Qed.

Lemma In_set_add (t x : Triple) (s : TripleSet) :
  In x (set_add t s) <-> In x s \/ x = t.
Proof.
  unfold set_add. destruct (existsb (triple_eqb t) s) eqn:E.
  - apply existsb_triple_eqb in E. split; [auto|].
    intros [H | ->]; assumption.
  - rewrite in_app_iff. simpl. intuition.
Qed.

Lemma set_add_idempotent (t : Triple) (s : TripleSet) :
  set_add t (set_add t s) = set_add t s.
Proof.
  unfold set_add at 1.
  replace (existsb (triple_eqb t) (set_add t s)) with true; [reflexivity|].
  symmetry. apply existsb_triple_eqb, In_set_add. now right.
Qed.

Lemma NoDup_set_add (t : Triple) (s : TripleSet) :
  NoDup s -> NoDup (set_add t s).
Proof.
  intros H. unfold set_add. destruct (existsb (triple_eqb t) s) eqn:E.
  - exact H.
  - apply NoDup_app; [ exact H | repeat constructor; auto | ].
    intros x Hx [<- | []].
    apply existsb_triple_eqb in Hx. congruence.
Qed.

(** ** Problem classifier *)

Lemma existsb_flat_map {A B : Type} (p : B -> bool) (g : A -> list B)
    (l : list A) :
  existsb p (flat_map g l) = existsb (fun x => existsb p (g x)) l.
Proof.
  induction l as [|x l IH]; simpl; [reflexivity|].
  now rewrite existsb_app, IH.
Qed.

(** The loop over [self.problematic_licenses.items()], for any table. *)
Lemma fold_table_at (t : Triple) (q : string -> bool)
    (table : list (Category * list string)) (ps : ByCategory TripleSet)
    (c : Category) :
  at_category
    (fold_left
       (fun ps (item : Category * list string) =>
          let '(category, license_list) := item in
          if existsb q license_list
          then update_category ps category (set_add t)
          else ps)
       table ps) c
  = if existsb q
         (flat_map
            (fun item : Category * list string =>
               if category_eq_dec (fst item) c then snd item else [])
            table)
    then set_add t (at_category ps c)
    else at_category ps c.
Proof.
  revert ps. induction table as [|[cat l] table IH]; intros ps;
    [reflexivity|].
  cbn [fold_left flat_map fst snd]. rewrite IH, existsb_app. clear IH.
  destruct (existsb q l) eqn:Hl.
  - rewrite at_update_category.
    destruct (category_eq_dec cat c) as [->|Hc]; cbn [existsb orb].
    + rewrite Hl. cbn [orb]. rewrite set_add_idempotent.
      match goal with |- (if ?b then _ else _) = _ => now destruct b end.
    + reflexivity.
  - destruct (category_eq_dec cat c) as [->|Hc]; cbn [existsb orb].
    + now rewrite Hl.
    + reflexivity.
Qed.

(** What [_add_to_problem_sets] does to the set of each category. *)
Lemma add_to_problem_sets_at (ps : ByCategory TripleSet)
    (license_key file_path : string) (score : Z) (c : Category) :
  at_category (_add_to_problem_sets ps license_key file_path score) c =
  if classified c license_key score
  then set_add (file_path, license_key, score) (at_category ps c)
  else at_category ps c.
Proof.
  unfold _add_to_problem_sets, classified, key_matches, category_fragments.
  destruct (score <? 70) eqn:Hs.
  - rewrite at_update_category.
    destruct (category_eq_dec low_confidence c) as [<-|Hc].
    + rewrite fold_table_at. cbn [orb].
      match goal with |- context [existsb ?q ?l] =>
        destruct (existsb q l) end; cbn [orb];
        [now rewrite set_add_idempotent | reflexivity].
    + rewrite fold_table_at.
      match goal with |- context [existsb ?q ?l] =>
        destruct (existsb q l) end; cbn [orb];
        [reflexivity | destruct c; congruence].
  - rewrite fold_table_at.
    match goal with |- context [existsb ?q ?l] =>
      destruct (existsb q l) end; cbn [orb];
      [reflexivity | destruct c; reflexivity].
Qed.

Lemma In_add_to_problem_sets (ps : ByCategory TripleSet)
    (license_key file_path : string) (score : Z) (c : Category)
    (x : Triple) :
  In x (at_category (_add_to_problem_sets ps license_key file_path score) c)
  <-> In x (at_category ps c)
      \/ (classified c license_key score = true
          /\ x = (file_path, license_key, score)).
Proof.
  rewrite add_to_problem_sets_at.
  destruct (classified c license_key score).
  - rewrite In_set_add. intuition.
  - intuition discriminate.
Qed.

(** Every fragment of the table is in lower case, so that looking for it in
    the lower-cased key is a case-insensitive search. *)
Lemma fragments_lower_case (c : Category) (fragment : string) :
  In fragment (category_fragments c) -> Py.lower fragment = fragment.
Proof.
  destruct c; cbn; intros H;
    repeat (destruct H as [<- | H]; [reflexivity|]); destruct H.
Qed.

Lemma key_matches_true (c : Category) (license_key : string) :
  key_matches c license_key = true <->
  exists fragment,
    In fragment (category_fragments c)
    /\ Py.str_in (Py.lower fragment) (Py.lower license_key) = true.
Proof.
  unfold key_matches. rewrite existsb_exists.
  split; intros [fragment [Hin H]]; exists fragment; split; auto.
  - now rewrite (fragments_lower_case c fragment Hin).
  - now rewrite (fragments_lower_case c fragment Hin) in H.
Qed.

(** ** From sets to lists *)

Lemma convert_inner_at (category c : Category) (l : list Triple)
    (problems : ByCategory (list Occurrence)) :
  at_category
    (fold_left
       (fun problems (item : Triple) =>
          let '(file_path, license_key, score) := item in
          update_category problems category
            (fun l => l ++ [{| file := file_path;
                               occ_name := license_key;
                               occ_score := score |}]))
       l problems) c
  = if category_eq_dec category c
    then at_category problems c ++ map occurrence_of_triple l
    else at_category problems c.
Proof.
  revert problems. induction l as [|[[f k] s] l IH]; intros problems.
  - cbn. destruct (category_eq_dec category c); [now rewrite app_nil_r|].
    reflexivity.
  - cbn [fold_left map]. rewrite IH, at_update_category.
    destruct (category_eq_dec category c) as [->|Hc]; [|reflexivity].
    now rewrite <- app_assoc.
Qed.

(** Each list of the result holds the elements of the set of its category,
    in the order in which the set is iterated. *)
Lemma convert_problem_sets_at (order : SetOrder)
    (problem_sets : ByCategory TripleSet) (c : Category) :
  at_category (_convert_problem_sets_to_list order problem_sets) c =
  map occurrence_of_triple (set_iter order (at_category problem_sets c)).
Proof.
  unfold _convert_problem_sets_to_list, category_keys.
  cbn [fold_left]. rewrite !convert_inner_at, at_all_categories.
  destruct c; reflexivity.
Qed.

Lemma occurrence_of_triple_injective (a b : Triple) :
  occurrence_of_triple a = occurrence_of_triple b -> a = b.
Proof.
  destruct a as [[f1 k1] s1], b as [[f2 k2] s2]. cbn. congruence.
Qed.

Lemma NoDup_map_occurrence_of_triple (l : list Triple) :
  NoDup l -> NoDup (map occurrence_of_triple l).
Proof.
  induction 1 as [|x l Hx Hl IH]; cbn [map]; constructor; [|exact IH].
  rewrite in_map_iff. intros [y [E Hy]].
  apply occurrence_of_triple_injective in E. now subst.
Qed.

(** ** The sets built from the tally *)

Lemma identify_problematic_licenses_eq (order : SetOrder)
    (license_stats : LicenseStats) :
  identify_problematic_licenses order license_stats =
  _convert_problem_sets_to_list order
    (problem_sets_of license_stats (all_categories [])).
Proof. reflexivity. Qed.

Lemma In_detections_fold (k : string) (occs : list Occurrence)
    (ps : ByCategory TripleSet) (c : Category) (x : Triple) :
  In x (at_category
          (fold_left
             (fun problem_sets detection_info =>
                _add_to_problem_sets problem_sets k
                  (file detection_info) (occ_score detection_info))
             occs ps) c)
  <-> In x (at_category ps c)
      \/ exists occ, In occ occs
                     /\ classified c k (occ_score occ) = true
                     /\ x = (file occ, k, occ_score occ).
Proof.
  revert ps. induction occs as [|o occs IH]; intros ps; cbn [fold_left].
  - split; [auto | intros [H | [occ [[] _]]]; exact H].
  - rewrite IH, In_add_to_problem_sets. split.
    + intros [[H | [Hc ->]] | [occ [Hin H]]].
      * now left.
      * right. exists o. split; [now left | auto].
      * right. exists occ. split; [now right | exact H].
    + intros [H | [occ [[<- | Hin] [Hc ->]]]].
      * now left; left.
      * left; right. auto.
      * right. exists occ. auto.
Qed.

Lemma In_problem_sets_of (license_stats : LicenseStats)
    (ps : ByCategory TripleSet) (c : Category) (x : Triple) :
  In x (at_category (problem_sets_of license_stats ps) c)
  <-> In x (at_category ps c)
      \/ exists k occ, In_stats k occ license_stats
                       /\ classified c k (occ_score occ) = true
                       /\ x = (file occ, k, occ_score occ).
Proof.
  unfold problem_sets_of, In_stats.
  revert ps. induction license_stats as [|[k occs] d IH]; intros ps;
    cbn [fold_left].
  - split; [auto | intros [H | [k [occ [[occs [[] _]] _]]]]; exact H].
  - rewrite IH, In_detections_fold. split.
    + intros [[H | [occ [Hin H]]] | [k' [occ [[occs' [Hd Hin]] H]]]].
      * now left.
      * right. exists k, occ. split; [|exact H].
        exists occs. split; [now left | exact Hin].
      * right. exists k', occ. split; [|exact H].
        exists occs'. split; [now right | exact Hin].
    + intros [H | [k' [occ [[occs' [[E | Hd] Hin]] H]]]].
      * now left; left.
      * injection E as <- <-. left; right. exists occ. auto.
      * right. exists k', occ. split; [|exact H].
        exists occs'. auto.
Qed.

Lemma NoDup_detections_fold (k : string) (occs : list Occurrence)
    (ps : ByCategory TripleSet) (c : Category) :
  NoDup (at_category ps c) ->
  NoDup (at_category
           (fold_left
              (fun problem_sets detection_info =>
                 _add_to_problem_sets problem_sets k
                   (file detection_info) (occ_score detection_info))
              occs ps) c).
Proof.
  revert ps. induction occs as [|o occs IH]; intros ps H; cbn [fold_left];
    [exact H|].
  apply IH. rewrite add_to_problem_sets_at.
  destruct (classified c k (occ_score o)); [now apply NoDup_set_add|exact H].
Qed.

Lemma NoDup_problem_sets_of (license_stats : LicenseStats)
    (ps : ByCategory TripleSet) (c : Category) :
  NoDup (at_category ps c) ->
  NoDup (at_category (problem_sets_of license_stats ps) c).
Proof.
  unfold problem_sets_of.
  revert ps. induction license_stats as [|[k occs] d IH]; intros ps H;
    cbn [fold_left]; [exact H|].
  apply IH. now apply NoDup_detections_fold.
Qed.

(** ** The tally *)

Lemma In_stats_append (k k' : string) (v occ : Occurrence)
    (d : LicenseStats) :
  In_stats k' occ (stats_append k v d)
  <-> In_stats k' occ d \/ (k' = k /\ occ = v).
Proof.
  unfold In_stats. induction d as [|[k0 vs] d IH]; cbn [stats_append].
  - split.
    + intros [occs [[E | []] Hin]]. injection E as <- <-.
      destruct Hin as [<- | []]. now right.
    + intros [[occs [[] _]] | [-> ->]].
      exists [v]. split; now left.
  - destruct (String.eqb_spec k k0) as [<- | Hk].
    + split.
      * intros [occs [[E | Hd] Hin]].
        -- injection E as <- <-. apply in_app_iff in Hin.
           destruct Hin as [Hin | [<- | []]].
           ++ left. exists vs. split; [now left | exact Hin].
           ++ now right.
        -- left. exists occs. split; [now right | exact Hin].
      * intros [[occs [[E | Hd] Hin]] | [-> ->]].
        -- injection E as <- <-. exists (vs ++ [v]).
           split; [now left | apply in_app_iff; now left].
        -- exists occs. split; [now right | exact Hin].
        -- exists (vs ++ [v]).
           split; [now left | apply in_app_iff; right; now left].
    + split.
      * intros [occs [[E | Hd] Hin]].
        -- left. exists occs. split; [now left | exact Hin].
        -- destruct (proj1 IH (ex_intro _ occs (conj Hd Hin)))
             as [[occs' [Hd' Hin']] | H].
           ++ left. exists occs'. split; [now right | exact Hin'].
           ++ now right.
      * intros [[occs [[E | Hd] Hin]] | H].
        -- exists occs. split; [now left | exact Hin].
        -- destruct (proj2 IH (or_introl (ex_intro _ occs (conj Hd Hin))))
             as [occs' [Hd' Hin']].
           exists occs'. split; [now right | exact Hin'].
        -- destruct (proj2 IH (or_intror H)) as [occs' [Hd' Hin']].
           exists occs'. split; [now right | exact Hin'].
Qed.

(** The occurrence that the tally records for a finding of a file. *)
Lemma In_stats_file_fold (file_path : string) (lics : list LicenseFinding)
    (acc : LicenseStats * Counter) (k : string) (occ : Occurrence) :
  In_stats k occ
    (fst (fold_left
            (fun acc lic => _process_license_detection lic file_path acc)
            lics acc))
  <-> In_stats k occ (fst acc)
      \/ exists lic, In lic lics /\ k = key lic
                     /\ occ = {| file := file_path; occ_name := name lic;
                                 occ_score := score lic |}.
Proof.
  revert acc. induction lics as [|l lics IH]; intros [stats counter];
    cbn [fold_left].
  - split; [auto | intros [H | [lic [[] _]]]; exact H].
  - rewrite IH. cbn [_process_license_detection fst].
    rewrite In_stats_append. split.
    + intros [[H | [-> ->]] | [lic [Hin H]]].
      * now left.
      * right. exists l. split; [now left | auto].
      * right. exists lic. split; [now right | exact H].
    + intros [H | [lic [[<- | Hin] [-> ->]]]].
      * now left; left.
      * left; right. auto.
      * right. exists lic. auto.
Qed.

(** The tally records exactly the findings of the files. *)
Lemma In_stats_analyze_licenses (data : ScanData) (k : string)
    (occ : Occurrence) :
  In_stats k occ (fst (analyze_licenses data))
  <-> exists file_info lic,
        In file_info (Py.get_or (files data) [])
        /\ In lic (extract_licenses_from_file file_info)
        /\ k = key lic
        /\ occ = {| file := Py.get_or (path file_info) "Unknown";
                    occ_name := name lic; occ_score := score lic |}.
Proof.
  unfold analyze_licenses. destruct (files data) as [fs|]; cbn [Py.get_or].
  - assert (G : forall acc,
               In_stats k occ
                 (fst (fold_left
                         (fun acc file_info =>
                            let file_path :=
                              Py.get_or (path file_info) "Unknown" in
                            fold_left
                              (fun acc lic =>
                                 _process_license_detection lic file_path acc)
                              (extract_licenses_from_file file_info) acc)
                         fs acc))
               <-> In_stats k occ (fst acc)
                   \/ exists file_info lic,
                        In file_info fs
                        /\ In lic (extract_licenses_from_file file_info)
                        /\ k = key lic
                        /\ occ = {| file :=
                                      Py.get_or (path file_info) "Unknown";
                                    occ_name := name lic;
                                    occ_score := score lic |}).
    { induction fs as [|f fs IH]; intros acc; cbn [fold_left].
      - split; [auto | intros [H | [f [lic [[] _]]]]; exact H].
      - rewrite IH. cbv zeta. rewrite In_stats_file_fold. split.
        + intros [[H | [lic [Hin H]]] | [f' [lic [Hf H]]]].
          * now left.
          * right. exists f, lic. split; [now left | auto].
          * right. exists f', lic. split; [now right | exact H].
        + intros [H | [f' [lic [[<- | Hf] H]]]].
          * now left; left.
          * left; right. exists lic. exact H.
          * right. exists f', lic. auto. }
    rewrite G. cbn [fst]. split.
    + intros [[occs [[] _]] | H]. exact H.
    + auto.
  - cbn [fst]. split.
    + intros [occs [[] _]].
    + intros [f [lic [[] _]]].
Qed.

(** The entries of a problem list are the findings of the files that the
    category classifies, each one once, in some order. *)
Lemma In_identify_problematic_licenses (order : SetOrder) (data : ScanData)
    (c : Category) (e : Occurrence) :
  In e (at_category
          (identify_problematic_licenses order (fst (analyze_licenses data)))
          c)
  <-> exists file_info lic,
        In file_info (Py.get_or (files data) [])
        /\ In lic (extract_licenses_from_file file_info)
        /\ classified c (key lic) (score lic) = true
        /\ e = {| file := Py.get_or (path file_info) "Unknown";
                  occ_name := key lic; occ_score := score lic |}.
Proof.
  rewrite identify_problematic_licenses_eq, convert_problem_sets_at.
  rewrite in_map_iff. split.
  - intros [x [<- Hx]].
    apply (Permutation_in _ (set_iter_perm order _)) in Hx.
    apply In_problem_sets_of in Hx. rewrite at_all_categories in Hx.
    destruct Hx as [[] | [k [occ [Hs [Hc ->]]]]].
    apply In_stats_analyze_licenses in Hs.
    destruct Hs as [f [lic [Hf [Hl [-> ->]]]]].
    exists f, lic. cbn in *. auto.
  - intros [f [lic [Hf [Hl [Hc ->]]]]].
    exists (Py.get_or (path f) "Unknown", key lic, score lic).
    split; [reflexivity|].
    apply (Permutation_in _ (Permutation_sym (set_iter_perm order _))).
    apply In_problem_sets_of. right.
    exists (key lic),
      {| file := Py.get_or (path f) "Unknown"; occ_name := name lic;
         occ_score := score lic |}.
    split; [|split; [exact Hc | reflexivity]].
    apply In_stats_analyze_licenses. exists f, lic. auto.
Qed.

Lemma NoDup_identify_problematic_licenses (order : SetOrder)
    (license_stats : LicenseStats) (c : Category) :
  NoDup (at_category (identify_problematic_licenses order license_stats) c).
Proof.
  rewrite identify_problematic_licenses_eq, convert_problem_sets_at.
  apply NoDup_map_occurrence_of_triple.
  apply (Permutation_NoDup (Permutation_sym (set_iter_perm order _))).
    apply NoDup_problem_sets_of. rewrite at_all_categories. constructor.
Qed.

(** ** Classification of GPL and AGPL keys *)

Lemma In_category_fragments (c : Category) (license_list : list string)
    (fragment : string) :
  In (c, license_list) problematic_licenses ->
  In fragment license_list ->
  In fragment (category_fragments c).
Proof.
  intros Ht Hf. unfold category_fragments. apply in_flat_map.
  exists (c, license_list). split; [exact Ht|]. cbn [fst snd].
  destruct (category_eq_dec c c); [exact Hf | contradiction].
Qed.

Lemma classified_by_fragment (c : Category) (fragment license_key : string)
    (score : Z) :
  In fragment (category_fragments c) ->
  Py.str_in fragment (Py.lower license_key) = true ->
  classified c license_key score = true.
Proof.
  intros Hin H. unfold classified, key_matches.
  apply orb_true_iff. left. apply existsb_exists. now exists fragment.
Qed.

Lemma In_added (ps : ByCategory TripleSet) (license_key file_path : string)
    (score : Z) (c : Category) :
  classified c license_key score = true ->
  In (file_path, license_key, score)
     (at_category (_add_to_problem_sets ps license_key file_path score) c).
Proof. intros H. apply In_add_to_problem_sets. right. auto. Qed.

Lemma existsb_ext_in {A : Type} (f g : A -> bool) (l : list A) :
  (forall x, In x l -> f x = g x) -> existsb f l = existsb g l.
Proof.
  induction l as [|x l IH]; intros H; cbn [existsb]; [reflexivity|].
  rewrite (H x (or_introl eq_refl)), IH; [reflexivity|].
  intros y Hy. apply H. now right.
Qed.

(** The fragments of a category of the table are its list in the table. *)
Lemma table_fragments (c : Category) (license_list : list string) :
  In (c, license_list) problematic_licenses ->
  c <> low_confidence /\ category_fragments c = license_list.
Proof.
  intros H. cbn in H.
  repeat (destruct H as [H | H];
          [injection H as <- <-; split; [discriminate | reflexivity]|]).
  destruct H.
Qed.

(** C1, amended. For every key, the triple is added to the set of a
    category of the fragment table exactly when some fragment of the list of
    that category is a case-insensitive substring of the key, and the set is
    left as it was otherwise. In particular a key whose lower-case form
    contains "gpl-2.0" is added to the gpl and copyleft sets; it is added to
    the agpl set as well when its lower-case form contains "agpl-3.0", and
    the agpl set is left as it was when no fragment of the agpl list occurs
    in the key, as for the plain key "gpl-2.0". *)
Theorem C1_gpl2_key_classification :
  (forall (ps : ByCategory TripleSet) (license_key file_path : string)
          (score : Z) (c : Category) (license_list : list string),
     In (c, license_list) problematic_licenses ->
     let t := (file_path, license_key, score) in
     let ps' := _add_to_problem_sets ps license_key file_path score in
     let hit :=
       existsb
         (fun fragment =>
            Py.str_in (Py.lower fragment) (Py.lower license_key))
         license_list in
     at_category ps' c =
       (if hit then set_add t (at_category ps c) else at_category ps c)
     /\ (hit = true -> In t (at_category ps' c)))
  /\ (forall (ps : ByCategory TripleSet) (license_key file_path : string)
             (score : Z),
        Py.str_in "gpl-2.0" (Py.lower license_key) = true ->
        let t := (file_path, license_key, score) in
        let ps' := _add_to_problem_sets ps license_key file_path score in
        In t (at_category ps' gpl)
        /\ In t (at_category ps' copyleft)
        /\ (Py.str_in "agpl-3.0" (Py.lower license_key) = true ->
            In t (at_category ps' agpl))
        /\ (key_matches agpl license_key = false ->
            at_category ps' agpl = at_category ps agpl))
  /\ (forall (ps : ByCategory TripleSet) (file_path : string) (score : Z),
        at_category (_add_to_problem_sets ps "gpl-2.0" file_path score) agpl
        = at_category ps agpl).
Proof.
  split; [|split].
  - intros ps license_key file_path score c license_list Ht t ps' hit.
    destruct (table_fragments c license_list Ht) as [Hc Hf].
    assert (E : classified c license_key score = hit).
    { subst hit. unfold classified, key_matches. rewrite Hf.
      replace (match c with low_confidence => score <? 70 | _ => false end)
        with false by (destruct c; try reflexivity; contradiction).
      rewrite orb_false_r. apply existsb_ext_in. intros fragment Hin.
      rewrite <- Hf in Hin.
      now rewrite (fragments_lower_case c fragment Hin). }
    subst ps' t. rewrite add_to_problem_sets_at, E. split; [reflexivity|].
    intros ->. apply In_set_add. now right.
  - intros ps license_key file_path score H t ps'. subst t ps'.
    repeat split.
    + apply In_added, (classified_by_fragment gpl GPL_2_0); [|exact H].
      cbn. auto.
    + apply In_added, (classified_by_fragment copyleft GPL_2_0);
        [|exact H].
      cbn. auto.
    + intros Ha.
      apply In_added, (classified_by_fragment agpl AGPL_3_0); [|exact Ha].
      cbn. auto.
    + intros Hn. rewrite add_to_problem_sets_at. unfold classified.
      now rewrite Hn.
  - intros ps file_path score. rewrite add_to_problem_sets_at. reflexivity.
Qed.

Lemma C1_gpl2_key_classification_witness :
  In (copyleft, [GPL_2_0; GPL_3_0; LGPL_2_1; LGPL_3_0; AGPL_3_0])
     problematic_licenses
  /\ Py.str_in "gpl-2.0" (Py.lower "GPL-2.0-only") = true
  /\ key_matches agpl "GPL-2.0-only" = false
  /\ In ("a.c", "GPL-2.0-only", 100)
        (at_category
           (_add_to_problem_sets (all_categories []) "GPL-2.0-only" "a.c" 100)
           gpl)
  /\ at_category
       (_add_to_problem_sets (all_categories []) "GPL-2.0-only" "a.c" 100)
       agpl = []
  /\ at_category
       (_add_to_problem_sets (all_categories []) "LGPL-2.1-or-later" "b.c"
          100) copyleft
     = [("b.c", "LGPL-2.1-or-later", 100)].
Proof.
  assert (Ht : In (copyleft, [GPL_2_0; GPL_3_0; LGPL_2_1; LGPL_3_0; AGPL_3_0])
                  problematic_licenses)
    by (right; right; left; reflexivity).
  split; [exact Ht | split; [reflexivity | split; [reflexivity|]]].
  pose proof (proj1 (proj2 C1_gpl2_key_classification) (all_categories [])
                "GPL-2.0-only" "a.c" 100 eq_refl) as H.
  cbv zeta in H. destruct H as (Hg & _ & _ & Ha).
  split; [exact Hg | split].
  - rewrite (Ha eq_refl). reflexivity.
  - rewrite (proj1 (proj1 C1_gpl2_key_classification (all_categories [])
                      "LGPL-2.1-or-later" "b.c" 100 copyleft _ Ht)).
    reflexivity.
Defined.

(** C1 as stated fails: the expression "gpl-2.0 AND agpl-3.0" contains
    "gpl-2.0" and its triple is added to the agpl set. *)
Lemma C1_counterexample_gpl2_key_in_agpl :
  Py.str_in "gpl-2.0" (Py.lower "gpl-2.0 AND agpl-3.0") = true
  /\ at_category (all_categories ([] : TripleSet)) agpl = []
  /\ at_category
       (_add_to_problem_sets (all_categories []) "gpl-2.0 AND agpl-3.0"
          "a.c" 100) agpl
     = [("a.c", "gpl-2.0 AND agpl-3.0", 100)].
Proof. repeat split. Qed.

(** C10. A key whose lower-case form contains "agpl-3.0" also contains the
    gpl fragment "gpl-3.0": its triple is added to the agpl, copyleft,
    commercial_unfriendly and gpl sets, so that every such finding of a
    document is an entry of the gpl problem list, and the recommendations
    hold a gpl entry that counts it. *)
Theorem C10_agpl_key_is_also_gpl (order : SetOrder) (data : ScanData)
    (file_info : FileRecord) (lic : LicenseFinding) :
  In file_info (Py.get_or (files data) []) ->
  In lic (extract_licenses_from_file file_info) ->
  Py.str_in "agpl-3.0" (Py.lower (key lic)) = true ->
  let file_path := Py.get_or (path file_info) "Unknown" in
  let problems :=
    identify_problematic_licenses order (fst (analyze_licenses data)) in
  let entry := {| file := file_path; occ_name := key lic;
                  occ_score := score lic |} in
  (forall ps c,
     In c [agpl; copyleft; commercial_unfriendly; gpl] ->
     In (file_path, key lic, score lic)
        (at_category
           (_add_to_problem_sets ps (key lic) file_path (score lic)) c))
  /\ (forall c,
        In c [agpl; copyleft; commercial_unfriendly; gpl] ->
        In entry (at_category problems c))
  /\ (exists r,
        In r (generate_recommendations problems)
        /\ severity r = high /\ rec_category r = "gpl"
        /\ affected_files r = List.length (at_category problems gpl)
        /\ (1 <= affected_files r)%nat).
Proof.
  intros Hf Hl H file_path problems entry.
  assert (Hc : forall c,
             In c [agpl; copyleft; commercial_unfriendly; gpl] ->
             classified c (key lic) (score lic) = true).
  { intros c Hin.
    assert (H3 : Py.str_in GPL_3_0 (Py.lower (key lic)) = true)
      by (apply (str_in_trans _ AGPL_3_0); [reflexivity | exact H]).
    cbn in Hin.
    destruct Hin as [<- | [<- | [<- | [<- | []]]]].
    - apply (classified_by_fragment agpl AGPL_3_0); [cbn; auto | exact H].
    - apply (classified_by_fragment copyleft AGPL_3_0);
        [cbn; auto 6 | exact H].
    - apply (classified_by_fragment commercial_unfriendly AGPL_3_0);
        [cbn; auto 6 | exact H].
    - apply (classified_by_fragment gpl GPL_3_0); [cbn; auto | exact H3]. }
  assert (He : forall c,
             In c [agpl; copyleft; commercial_unfriendly; gpl] ->
             In entry (at_category problems c)).
  { intros c Hin. apply In_identify_problematic_licenses.
    exists file_info, lic. auto. }
  split; [|split].
  - intros ps c Hin. apply In_added, Hc, Hin.
  - exact He.
  - assert (Hg : In entry (at_category problems gpl))
      by (apply He; cbn; auto).
    rewrite generate_recommendations_eq.
    destruct (at_category problems gpl) as [|e l] eqn:E; [destruct Hg|].
    eexists. split; [apply in_or_app; left; cbn; left; reflexivity|].
    cbn. repeat split. lia.
Qed.

Lemma C10_agpl_key_is_also_gpl_witness :
  let file_info :=
    {| path := Some "server.py"; scan_errors := None;
       detected_license_expression := Some "AGPL-3.0-only";
       license_detections := None; licenses := None |} in
  let data := {| files := Some [file_info] |} in
  let lic := {| key := "AGPL-3.0-only"; name := "AGPL-3.0-only";
                score := 100 |} in
  In file_info (Py.get_or (files data) [])
  /\ In lic (extract_licenses_from_file file_info)
  /\ Py.str_in "agpl-3.0" (Py.lower (key lic)) = true
  /\ In {| file := "server.py"; occ_name := "AGPL-3.0-only";
           occ_score := 100 |}
        (at_category
           (identify_problematic_licenses insertion_order
              (fst (analyze_licenses data))) gpl).
Proof.
  intros file_info data lic.
  assert (H1 : In file_info (Py.get_or (files data) []))
    by (left; reflexivity).
  assert (H2 : In lic (extract_licenses_from_file file_info))
    by (left; reflexivity).
  assert (H3 : Py.str_in "agpl-3.0" (Py.lower (key lic)) = true)
    by reflexivity.
  repeat split; try assumption.
  apply (proj1 (proj2 (C10_agpl_key_is_also_gpl insertion_order data
                         file_info lic H1 H2 H3)) gpl).
  right; right; right; left; reflexivity.
Defined.

(** ** Issue scanner *)

Lemma fold_left_cond_snoc {A B : Type} (p : A -> bool) (g : A -> B)
    (l : list A) (acc : list B) :
  fold_left (fun acc x => if p x then acc ++ [g x] else acc) l acc =
  acc ++ map g (filter p l).
Proof.
  revert acc; induction l as [|x l IH]; intros acc; cbn [fold_left filter].
  - now rewrite app_nil_r.
  - rewrite IH. destruct (p x); [|reflexivity].
    now rewrite <- app_assoc.
Qed.

Lemma file_issues_eq (issues : list Issue) (file_info : FileRecord) :
  file_issues issues file_info =
  issues ++ scan_error_issues file_info
         ++ map (low_confidence_issue (Py.get_or (path file_info) "Unknown"))
                (filter (fun lic => score lic <? 50)
                        (extract_licenses_from_file file_info)).
Proof.
  unfold file_issues, scan_error_issues.
  rewrite (fold_left_cond_snoc (fun lic => score lic <? 50)
             (low_confidence_issue (Py.get_or (path file_info) "Unknown"))).
  destruct (scan_errors file_info) as [[|e es]|];
    now rewrite <- ?app_assoc, ?app_nil_r.
Qed.

Lemma get_files_with_issues_eq (data : ScanData) :
  snd (get_files_with_issues data) =
  flat_map
    (fun file_info =>
       scan_error_issues file_info
       ++ map (low_confidence_issue (Py.get_or (path file_info) "Unknown"))
              (filter (fun lic => score lic <? 50)
                      (extract_licenses_from_file file_info)))
    (Py.get_or (files data) []).
Proof.
  unfold get_files_with_issues.
  destruct (files data) as [fs|]; cbn [snd Py.get_or]; [|reflexivity].
  assert (G : forall acc,
             fold_left file_issues fs acc =
             acc ++ flat_map
                      (fun file_info =>
                         file_issues [] file_info) fs).
  { induction fs as [|f fs IH]; intros acc; cbn [fold_left flat_map].
    - now rewrite app_nil_r.
    - rewrite IH, (file_issues_eq acc), (file_issues_eq []).
      cbn [app]. now rewrite <- !app_assoc. }
  rewrite G. cbn [app]. apply flat_map_ext. intros f.
  now rewrite file_issues_eq.
Qed.

Lemma filter_flat_map {A B : Type} (p : B -> bool) (g : A -> list B)
    (l : list A) :
  filter p (flat_map g l) = flat_map (fun x => filter p (g x)) l.
Proof.
  induction l as [|x l IH]; cbn [flat_map]; [reflexivity|].
  now rewrite filter_app, IH.
Qed.

Lemma filter_all {A : Type} (p : A -> bool) (l : list A) :
  (forall x, In x l -> p x = true) -> filter p l = l.
Proof.
  induction l as [|x l IH]; intros H; cbn [filter]; [reflexivity|].
  rewrite (H x (or_introl eq_refl)), IH; [reflexivity|].
  intros y Hy. apply H. now right.
Qed.

(** ** Iteration of small sets *)

Lemma set_iter_nil (order : SetOrder) : set_iter order [] = [].
Proof.
  apply Permutation_nil, Permutation_sym, set_iter_perm.
Qed.

Lemma set_iter_singleton (order : SetOrder) (t : Triple) :
  set_iter order [t] = [t].
Proof.
  apply Permutation_length_1_inv, Permutation_sym, set_iter_perm.
Qed.

Lemma by_category_ext {A : Type} (a b : ByCategory A) :
  (forall c, at_category a c = at_category b c) -> a = b.
Proof.
  intros H. destruct a, b.
  pose proof (H copyleft). pose proof (H gpl). pose proof (H agpl).
  pose proof (H commercial_unfriendly). pose proof (H unknown).
  pose proof (H low_confidence). cbn in *. congruence.
Qed.

Lemma identify_problematic_licenses_nil (order : SetOrder) :
  identify_problematic_licenses order [] = all_categories [].
Proof.
  apply by_category_ext. intros c.
  rewrite identify_problematic_licenses_eq, convert_problem_sets_at.
  cbn [problem_sets_of fold_left].
  now rewrite !at_all_categories, set_iter_nil.
Qed.

(** C2. The issue scanner emits a low_confidence_license issue exactly for
    the findings with score < 50 (in file order, then finding order); the
    classifier adds the triple to the low_confidence set exactly when
    score < 70, whatever the key; a finding "mit" with score 65 is therefore
    listed under low_confidence only and raises no issue. *)
Theorem C2_two_strict_thresholds :
  (forall data : ScanData,
     filter is_low_confidence_issue (snd (get_files_with_issues data)) =
     flat_map
       (fun file_info =>
          map (low_confidence_issue (Py.get_or (path file_info) "Unknown"))
              (filter (fun lic => score lic <? 50)
                      (extract_licenses_from_file file_info)))
       (Py.get_or (files data) []))
  /\ (forall ps license_key file_path score,
        at_category
          (_add_to_problem_sets ps license_key file_path score)
          low_confidence
        = if score <? 70
          then set_add (file_path, license_key, score)
                 (at_category ps low_confidence)
          else at_category ps low_confidence)
  /\ (forall order : SetOrder,
        identify_problematic_licenses order
          (fst (analyze_licenses mit_score_65))
        = {| in_copyleft := []; in_gpl := []; in_agpl := [];
             in_commercial_unfriendly := []; in_unknown := [];
             in_low_confidence :=
               [{| file := "a.c"; occ_name := "mit"; occ_score := 65 |}] |}
        /\ snd (get_files_with_issues mit_score_65) = []).
Proof.
  split; [|split].
  - intros data. rewrite get_files_with_issues_eq, filter_flat_map.
    apply flat_map_ext. intros f. rewrite filter_app.
    rewrite (filter_all _ (map _ _)) by (intros x Hx; apply in_map_iff in Hx;
                           destruct Hx as [lic [<- _]]; reflexivity).
    unfold scan_error_issues.
    destruct (scan_errors f) as [[|e es]|]; reflexivity.
  - intros ps license_key file_path score.
    rewrite add_to_problem_sets_at. reflexivity.
  - intros order. split; [|reflexivity].
    apply by_category_ext. intros c.
    rewrite identify_problematic_licenses_eq, convert_problem_sets_at.
    destruct c;
      match goal with
      | |- context [set_iter order ?s] =>
          let v := eval vm_compute in s in
          change s with v
      end;
      rewrite ?set_iter_nil, ?set_iter_singleton; reflexivity.
Qed.

(** ** Detailed exporter and the iteration order of sets *)

Lemma identify_problematic_licenses_perm (o1 o2 : SetOrder)
    (license_stats : LicenseStats) (c : Category) :
  Permutation
    (at_category (identify_problematic_licenses o1 license_stats) c)
    (at_category (identify_problematic_licenses o2 license_stats) c).
Proof.
  rewrite !identify_problematic_licenses_eq, !convert_problem_sets_at.
  apply Permutation_map.
  transitivity (at_category
                  (problem_sets_of license_stats (all_categories [])) c).
  - apply set_iter_perm.
  - apply Permutation_sym, set_iter_perm.
Qed.

(** C5, amended. For a fixed document the exported license_statistics do
    not depend on the run; the problematic_licenses section does not depend
    on the time of the run, and between two runs, whose sets may be iterated
    in different orders, each category list holds the same entries, each
    one once: the two lists are permutations of one another. *)
Theorem C5_export_deterministic_up_to_set_order
    (isoformat : Z -> string) (self : ScanCodeAnalyzer)
    (o1 o2 : SetOrder) (t1 t2 : Z) :
  let r1 := detailed_report isoformat self o1 t1 in
  let r2 := detailed_report isoformat self o2 t2 in
  license_statistics r1 = license_statistics r2
  /\ report_problematic_licenses r1 =
     report_problematic_licenses (detailed_report isoformat self o1 t2)
  /\ (forall c,
        Permutation (at_category (report_problematic_licenses r1) c)
                    (at_category (report_problematic_licenses r2) c)
        /\ NoDup (at_category (report_problematic_licenses r1) c)).
Proof.
  unfold detailed_report.
  destruct (analyze_licenses (data self)) as [license_stats all_licenses].
  cbn [license_statistics report_problematic_licenses].
  split; [reflexivity | split; [reflexivity|]].
  intros c. split.
  - apply identify_problematic_licenses_perm.
  - apply NoDup_identify_problematic_licenses.
Qed.

(** C5 as stated fails: with the sets iterated in insertion order in one
    run and in the reverse order in another, the gpl list of the same
    document comes out in two different orders. *)
Lemma C5_counterexample_entry_order :
  let self := {| json_file := "scan.json"; data := two_gpl_licenses |} in
  let r1 := detailed_report sample_isoformat self insertion_order 0 in
  let r2 := detailed_report sample_isoformat self reversed_order 0 in
  in_gpl (report_problematic_licenses r1) =
    [{| file := "a.c"; occ_name := "gpl-2.0"; occ_score := 100 |};
     {| file := "a.c"; occ_name := "gpl-3.0"; occ_score := 100 |}]
  /\ in_gpl (report_problematic_licenses r2) =
    [{| file := "a.c"; occ_name := "gpl-3.0"; occ_score := 100 |};
     {| file := "a.c"; occ_name := "gpl-2.0"; occ_score := 100 |}]
  /\ report_problematic_licenses r1 <> report_problematic_licenses r2.
Proof.
  intros self r1 r2. split; [reflexivity | split; [reflexivity|]].
  intros E. apply (f_equal in_gpl) in E. vm_compute in E. discriminate.
Qed.

(** ** Problem listing of the textual report *)

Lemma category_listing_shape (category : Category) (e : Occurrence)
    (l : list Occurrence) :
  category_listing category (e :: l) =
  category_header category (S (List.length l))
  :: flat_map example_lines (firstn 5 (e :: l))
  ++ (if Nat.ltb 5 (S (List.length l))
      then [more_files_note (S (List.length l) - 5)]
      else []).
Proof. reflexivity. Qed.

(** At most five examples, two lines each. *)
Lemma category_listing_examples (l : list Occurrence) :
  List.length (flat_map example_lines (firstn 5 l)) =
  (2 * Nat.min 5 (List.length l))%nat.
Proof.
  rewrite <- length_firstn.
  induction (firstn 5 l) as [|x f IH]; cbn [flat_map example_lines app];
    [reflexivity|].
  cbn [List.length]. rewrite IH. lia.
Qed.

Lemma header_printed (problems : ByCategory (list Occurrence))
    (c : Category) :
  at_category problems c <> [] ->
  In (category_header c (List.length (at_category problems c)))
     (_print_potential_issues problems).
Proof.
  intros H. unfold _print_potential_issues.
  apply in_or_app. right. apply in_or_app. left.
  match goal with |- In _ (if Nat.eqb ?n 0 then _ else _) =>
    assert (Hn : n <> 0%nat) end.
  { unfold category_keys. cbn [fold_left].
    destruct (at_category problems c) as [|e l] eqn:E; [contradiction|].
    destruct c; cbn [at_category] in E; cbn [at_category];
      rewrite E; cbn [List.length]; lia. }
  apply Nat.eqb_neq in Hn. rewrite Hn.
  apply in_flat_map. exists c. split.
  - destruct c; cbn; auto 7.
  - destruct (at_category problems c) as [|e l]; [contradiction|].
    rewrite category_listing_shape. now left.
Qed.

(** C6, the count. For a file with two GPL licenses the listing prints
    "GPL LICENSES (2 files)" although the gpl entries name one file: the
    number printed is the number of (file, license, score) entries. *)
Theorem C6_count_is_entries_not_distinct_files (order : SetOrder) :
  let problems :=
    identify_problematic_licenses order
      (fst (analyze_licenses two_gpl_licenses)) in
  In (Py.fstr [newline; "   🚨 GPL LICENSES (2 files):"])
     (_print_potential_issues problems)
  /\ List.length (at_category problems gpl) = 2%nat
  /\ distinct_files (at_category problems gpl) = 1%nat.
Proof.
  intros problems.
  assert (E : at_category problems gpl =
              [{| file := "a.c"; occ_name := "gpl-2.0"; occ_score := 100 |};
               {| file := "a.c"; occ_name := "gpl-3.0"; occ_score := 100 |}]
              \/ at_category problems gpl =
              [{| file := "a.c"; occ_name := "gpl-3.0"; occ_score := 100 |};
               {| file := "a.c"; occ_name := "gpl-2.0"; occ_score := 100 |}]).
  { subst problems.
    rewrite identify_problematic_licenses_eq, convert_problem_sets_at.
    match goal with
    | |- context [set_iter order ?s] =>
        let v := eval vm_compute in s in change s with v
    end.
    match goal with
    | |- context [set_iter order ?s] =>
        pose proof (Permutation_sym (set_iter_perm order s)) as P
    end.
    apply Permutation_length_2_inv in P.
    destruct P as [-> | ->]; [left | right]; reflexivity. }
  assert (L : List.length (at_category problems gpl) = 2%nat)
    by (destruct E as [-> | ->]; reflexivity).
  split; [|split].
  - change (Py.fstr [newline; "   🚨 GPL LICENSES (2 files):"])
      with (category_header gpl 2).
    rewrite <- L. apply header_printed.
    destruct E as [-> | ->]; discriminate.
  - exact L.
  - destruct E as [-> | ->]; reflexivity.
Qed.

(** ** The process *)

Section Process.

Variable json_load : string -> string + ScanData.
Variable json_dump : DetailedReport -> string.
Variable repr_list : list string -> string.
Variable strftime : Z -> string.
Variable isoformat : Z -> string.

(** C8. When the input path does not exist the program prints an error
    that names the path, exits with status 1 and leaves the file system
    as it was, so that the output file is neither created nor modified;
    [load_data] treats a file that cannot be found in the same way. *)
Theorem C8_missing_input_exits_1 (prog json_file : string) (w : World) :
  fs w json_file = None ->
  let r := main json_load json_dump repr_list strftime isoformat
             [prog; json_file] w in
  exit_status (fst r) = 1
  /\ stdout (snd r) =
     stdout w ++ [Py.fstr ["❌ Error: File "; json_file;
                           " does not exist"]]
  /\ fs (snd r) = fs w
  /\ fs (snd r) default_output_file = fs w default_output_file
  /\ load_data json_load json_file w =
     (Exited 1,
      {| fs := fs w;
         stdout := stdout w ++ [Py.fstr ["❌ Error: File "; json_file;
                                         " not found"]];
         clock := clock w; clock_reads := clock_reads w;
         hash_order := hash_order w |}).
Proof.
  intros H r. subst r.
  unfold main, load_data, bind, path_exists, read_file.
  cbn [List.length Nat.eqb negb nth]. rewrite H.
  cbn. repeat split.
Qed.

(** C9. A document whose [files] list is empty is processed to the end:
    the exit status is 0, the report prints "Total files scanned: 0" and
    "No major license issues detected!", and the export holds empty
    license statistics, problem lists, issue list and recommendations,
    with all metadata counts zero (its date is the second reading of
    the clock, the first one being in the header of the report). *)
Theorem C9_empty_files_document (prog json_file text : string)
    (w : World) :
  fs w json_file = Some text ->
  json_load text = inr {| files := Some [] |} ->
  let r := main json_load json_dump repr_list strftime isoformat
             [prog; json_file] w in
  exit_status (fst r) = 0
  /\ In "   Total files scanned: 0" (stdout (snd r))
  /\ In "   ✅ No major license issues detected!" (stdout (snd r))
  /\ fs (snd r) default_output_file =
     Some (json_dump
             {| metadata :=
                  {| source_file := json_file;
                     analysis_date :=
                       isoformat (clock w (S (clock_reads w)));
                     meta_total_files := 0;
                     total_licenses := 0;
                     total_license_detections := 0 |};
                license_statistics := [];
                report_problematic_licenses := all_categories [];
                scan_issues := [];
                recommendations := [] |}).
Proof.
  intros Hfs Hload r. subst r.
  run_step. rewrite Hfs. run_step. rewrite Hfs. run_step.
  rewrite Hload. run_step.
  rewrite !identify_problematic_licenses_nil.
  repeat split.
  - rewrite !in_app_iff. cbn. tauto.
  - rewrite !in_app_iff. cbn. tauto.
Qed.

End Process.

Lemma C8_missing_input_exits_1_witness :
  fs missing_input_world "missing.json" = None
  /\ exit_status
       (fst (main sample_json_load sample_json_dump sample_repr_list
               sample_strftime sample_isoformat
               ["parse_scancode_results.py"; "missing.json"]
               missing_input_world)) = 1.
Proof.
  split; [reflexivity|].
  exact (proj1 (C8_missing_input_exits_1 sample_json_load sample_json_dump
                  sample_repr_list sample_strftime sample_isoformat
                  "parse_scancode_results.py" "missing.json"
                  missing_input_world eq_refl)).
Defined.

Lemma C9_empty_files_document_witness :
  fs empty_files_world "scan.json" = Some empty_files_text
  /\ sample_json_load empty_files_text = inr {| files := Some [] |}
  /\ exit_status
       (fst (main sample_json_load sample_json_dump sample_repr_list
               sample_strftime sample_isoformat
               ["parse_scancode_results.py"; "scan.json"]
               empty_files_world)) = 0.
Proof.
  split; [reflexivity | split; [reflexivity|]].
  exact (proj1 (C9_empty_files_document sample_json_load sample_json_dump
                  sample_repr_list sample_strftime sample_isoformat
                  "parse_scancode_results.py" "scan.json" empty_files_text
                  empty_files_world eq_refl eq_refl)).
Defined.

(** * Further properties *)

(** ** The tally, key by key *)

Lemma analyze_licenses_fold (data : ScanData) :
  analyze_licenses data =
  fold_left
    (fun acc (pf : string * LicenseFinding) =>
       _process_license_detection (snd pf) (fst pf) acc)
    (all_findings data) ([], []).
Proof.
  unfold analyze_licenses, all_findings.
  destruct (files data) as [fs|]; cbn [Py.get_or]; [|reflexivity].
  generalize (([], []) : LicenseStats * Counter).
  induction fs as [|f fs IH]; intros acc; cbn [fold_left flat_map];
    [reflexivity|].
  rewrite fold_left_app, IH. f_equal.
  generalize (Py.get_or (path f) "Unknown") as p.
  intros p. revert acc.
  induction (extract_licenses_from_file f) as [|l ls IHl]; intros acc;
    cbn [fold_left map]; [reflexivity|].
  now rewrite IHl.
Qed.

Lemma counter_get_incr (k k' : string) (c : Counter) :
  counter_get k' (counter_incr k c) =
  (counter_get k' c + if String.eqb k k' then 1 else 0)%nat.
Proof.
  induction c as [|[k0 n] c IH]; cbn [counter_incr counter_get].
  - rewrite String.eqb_sym. destruct (String.eqb k k'); reflexivity.
  - destruct (String.eqb_spec k k0) as [<- | Hk]; cbn [counter_get].
    + rewrite String.eqb_sym.
      destruct (String.eqb k k'); lia.
    + destruct (String.eqb_spec k' k0) as [-> | Hk'].
      * destruct (String.eqb_spec k k0); [contradiction | lia].
      * exact IH.
Qed.

Lemma stats_get_append (k k' : string) (v : Occurrence) (d : LicenseStats) :
  stats_get k' (stats_append k v d) =
  stats_get k' d ++ (if String.eqb k k' then [v] else []).
Proof.
  induction d as [|[k0 vs] d IH]; cbn [stats_append stats_get].
  - rewrite String.eqb_sym. destruct (String.eqb k k'); reflexivity.
  - destruct (String.eqb_spec k k0) as [<- | Hk]; cbn [stats_get].
    + rewrite String.eqb_sym.
      destruct (String.eqb k k'); [reflexivity | now rewrite app_nil_r].
    + destruct (String.eqb_spec k' k0) as [-> | Hk'].
      * destruct (String.eqb_spec k k0); [contradiction|].
        now rewrite app_nil_r.
      * exact IH.
Qed.

Lemma counter_total_from (c : Counter) (a : nat) :
  fold_left (fun acc (kv : string * nat) => (acc + snd kv)%nat) c a =
  (a + counter_total c)%nat.
Proof.
  unfold counter_total. revert a.
  induction c as [|[k n] c IH]; intros a; cbn [fold_left snd]; [lia|].
  rewrite IH, (IH (0 + n)%nat). lia.
Qed.

Lemma counter_total_incr (k : string) (c : Counter) :
  counter_total (counter_incr k c) = S (counter_total c).
Proof.
  induction c as [|[k0 n] c IH].
  - reflexivity.
  - cbn [counter_incr]. unfold counter_total in *.
    destruct (String.eqb k k0); cbn [fold_left snd];
      rewrite !(counter_total_from _ (0 + _)); unfold counter_total.
    + lia.
    + rewrite IH. lia.
Qed.

Lemma keys_counter_incr (k : string) (c : Counter) :
  map fst (counter_incr k c) =
  if existsb (String.eqb k) (map fst c) then map fst c
  else map fst c ++ [k].
Proof.
  induction c as [|[k0 n] c IH]; cbn [counter_incr map fst existsb app];
    [reflexivity|].
  destruct (String.eqb k k0); cbn [map fst orb]; [reflexivity|].
  rewrite IH. now destruct (existsb (String.eqb k) (map fst c)).
Qed.

Lemma keys_stats_append (k : string) (v : Occurrence) (d : LicenseStats) :
  map fst (stats_append k v d) =
  if existsb (String.eqb k) (map fst d) then map fst d
  else map fst d ++ [k].
Proof.
  induction d as [|[k0 vs] d IH]; cbn [stats_append map fst existsb app];
    [reflexivity|].
  destruct (String.eqb k k0); cbn [map fst orb]; [reflexivity|].
  rewrite IH. now destruct (existsb (String.eqb k) (map fst d)).
Qed.

Lemma existsb_eqb_In (k : string) (l : list string) :
  existsb (String.eqb k) l = true <-> In k l.
Proof.
  rewrite existsb_exists. split.
  - intros [x [Hx E]]. apply String.eqb_eq in E. now subst.
  - intros H. exists k. split; [exact H | apply String.eqb_refl].
Qed.

(** What the tally holds after any number of findings. *)
Lemma tally_fold (l : list (string * LicenseFinding))
    (acc : LicenseStats * Counter) (k : string) :
  let r := fold_left
             (fun acc (pf : string * LicenseFinding) =>
                _process_license_detection (snd pf) (fst pf) acc)
             l acc in
  counter_get k (snd r) =
    (counter_get k (snd acc) + List.length (filter (has_key k) l))%nat
  /\ stats_get k (fst r) =
     stats_get k (fst acc) ++ map occurrence_of_finding (filter (has_key k) l)
  /\ counter_total (snd r) = (counter_total (snd acc) + List.length l)%nat
  /\ (map fst (fst acc) = map fst (snd acc) ->
      map fst (fst r) = map fst (snd r))
  /\ (NoDup (map fst (snd acc)) -> NoDup (map fst (snd r)))
  /\ (In k (map fst (snd r)) <->
      In k (map fst (snd acc)) \/ In k (map (fun pf => key (snd pf)) l)).
Proof.
  revert acc. induction l as [|[p lic] l IH]; intros [stats counter].
  - cbn. rewrite app_nil_r. repeat split; auto; try lia.
    intros [H | []]; exact H.
  - cbn [fold_left fst snd _process_license_detection].
    specialize (IH (stats_append (key lic)
                      {| file := p; occ_name := name lic;
                         occ_score := score lic |} stats,
                    counter_incr (key lic) counter)).
    cbv zeta in IH. cbn [fst snd] in IH.
    destruct IH as (I1 & I2 & I3 & I4 & I5 & I6).
    cbv zeta. cbn [filter fst snd map].
    change (has_key k (p, lic)) with (String.eqb (key lic) k).
    split; [|split; [|split; [|split; [|split]]]].
    + rewrite I1, counter_get_incr.
      destruct (String.eqb (key lic) k); cbn [List.length]; lia.
    + rewrite I2, stats_get_append.
      destruct (String.eqb (key lic) k); cbn [map app];
        now rewrite <- app_assoc.
    + rewrite I3, counter_total_incr. cbn [List.length]. lia.
    + intros E. apply I4.
      now rewrite keys_stats_append, keys_counter_incr, E.
    + intros N. apply I5. rewrite keys_counter_incr.
      destruct (existsb (String.eqb (key lic)) (map fst counter)) eqn:X;
        [exact N|].
      apply NoDup_app; [exact N | repeat constructor; auto |].
      intros x Hx [<- | []].
      apply existsb_eqb_In in Hx. congruence.
    + rewrite I6, keys_counter_incr.
      destruct (existsb (String.eqb (key lic)) (map fst counter)) eqn:X.
      * apply existsb_eqb_In in X. split.
        -- intros [H | H]; [now left | right; now right].
        -- intros [H | [<- | H]]; auto.
      * rewrite in_app_iff. cbn [In]. tauto.
Qed.

(** X1. The counter of a key is the number of findings with that key in the
    whole document (findings, not files), and a key that no finding has
    counts 0. *)
Theorem X1_counter_counts_findings (data : ScanData) (k : string) :
  counter_get k (snd (analyze_licenses data)) =
  List.length (filter (has_key k) (all_findings data)).
Proof.
  rewrite analyze_licenses_fold.
  exact (proj1 (tally_fold (all_findings data) ([], []) k)).
Qed.

(** X2. The occurrences recorded under a key are those of the findings with
    that key, in document order (file order, then the order of the findings
    of a file), each with the path of its file and the name and score of
    the finding. *)
Theorem X2_stats_keep_document_order (data : ScanData) (k : string) :
  stats_get k (fst (analyze_licenses data)) =
  map occurrence_of_finding (filter (has_key k) (all_findings data)).
Proof.
  rewrite analyze_licenses_fold.
  exact (proj1 (proj2 (tally_fold (all_findings data) ([], []) k))).
Qed.

(** X3. The two results of [analyze_licenses] agree: they have the same
    keys in the same order, no key twice, a key is present exactly when some
    finding has it, and the count of a key is the length of its list of
    occurrences; the counts add up to the number of findings of the
    document. *)
Theorem X3_tally_is_consistent (data : ScanData) :
  let license_stats := fst (analyze_licenses data) in
  let all_licenses := snd (analyze_licenses data) in
  map fst license_stats = map fst all_licenses
  /\ NoDup (map fst all_licenses)
  /\ (forall k,
        In k (map fst all_licenses) <->
        exists pf, In pf (all_findings data) /\ key (snd pf) = k)
  /\ (forall k,
        counter_get k all_licenses =
        List.length (stats_get k license_stats))
  /\ counter_total all_licenses = List.length (all_findings data).
Proof.
  cbv zeta. rewrite analyze_licenses_fold.
  split; [|split; [|split; [|split]]].
  - now apply (tally_fold (all_findings data) ([], []) EmptyString).
  - apply (tally_fold (all_findings data) ([], []) EmptyString).
    constructor.
  - intros k.
    destruct (tally_fold (all_findings data) ([], []) k)
      as (_ & _ & _ & _ & _ & H).
    cbv zeta in H. rewrite H. cbn [snd map In]. split.
    + intros [[] | Hin]. apply in_map_iff in Hin.
      destruct Hin as [pf [E Hin]]. now exists pf.
    + intros [pf [Hin E]]. right. apply in_map_iff. now exists pf.
  - intros k.
    destruct (tally_fold (all_findings data) ([], []) k)
      as (H1 & H2 & _).
    cbv zeta in H1, H2. rewrite H1, H2. cbn. now rewrite length_map.
  - now destruct (tally_fold (all_findings data) ([], []) EmptyString)
      as (_ & _ & -> & _).
Qed.

(** ** Issues, file by file *)









(** X5. Every low_confidence_license issue is also an entry of the
    low_confidence problem list: the finding that raised it has score < 50,
    hence < 70, and the entry has the file of the issue and the key and
    score that the message of the issue shows. *)
Theorem X5_low_confidence_issue_has_problem_entry (order : SetOrder)
    (data : ScanData) (i : Issue) :
  In i (snd (get_files_with_issues data)) ->
  issue_type i = low_confidence_license ->
  exists e,
    In e (at_category
            (identify_problematic_licenses order
               (fst (analyze_licenses data))) low_confidence)
    /\ file e = issue_file i
    /\ occ_score e < 50
    /\ issue_details i =
       Message (Py.fstr ["License: "; occ_name e; ", Score: ";
                         Py.str_of_Z (occ_score e)]).
Proof.
  intros Hin Ht. rewrite get_files_with_issues_eq in Hin.
  apply in_flat_map in Hin. destruct Hin as [f [Hf Hin]].
  apply in_app_or in Hin. destruct Hin as [Hin | Hin].
  - unfold scan_error_issues in Hin.
    destruct (scan_errors f) as [[|e es]|]; try destruct Hin as [<- | []];
      try destruct Hin; discriminate.
  - apply in_map_iff in Hin. destruct Hin as [lic [<- Hl]].
    apply filter_In in Hl. destruct Hl as [Hl Hs].
    apply Z.ltb_lt in Hs.
    exists {| file := Py.get_or (path f) "Unknown"; occ_name := key lic;
              occ_score := score lic |}.
    split; [|repeat split; assumption].
    apply In_identify_problematic_licenses. exists f, lic.
    repeat split; try assumption.
    unfold classified. apply orb_true_iff. right.
    apply Z.ltb_lt. lia.
Qed.

Lemma X5_low_confidence_issue_has_problem_entry_witness :
  let data :=
    {| files :=
         Some [{| path := Some "a.c"; scan_errors := None;
                  detected_license_expression := None;
                  license_detections := None;
                  licenses :=
                    Some [{| lic_key := Some "mit"; lic_name := None;
                             lic_score := Some 30 |}] |}] |} in
  let i := {| issue_file := "a.c"; issue_type := low_confidence_license;
              issue_details := Message "License: mit, Score: 30" |} in
  In i (snd (get_files_with_issues data))
  /\ issue_type i = low_confidence_license
  /\ exists e,
       In e (at_category
               (identify_problematic_licenses insertion_order
                  (fst (analyze_licenses data))) low_confidence)
       /\ file e = "a.c".
Proof.
  intros data i.
  assert (H1 : In i (snd (get_files_with_issues data)))
    by (left; reflexivity).
  split; [exact H1 | split; [reflexivity|]].
  destruct (X5_low_confidence_issue_has_problem_entry insertion_order data i
              H1 eq_refl) as [e [He [Hf _]]].
  exists e. split; [exact He | exact Hf].
Defined.

(** ** Problem lists *)

(** X6. An entry is in the problem list of a category exactly when some
    finding of some file of the document is classified into the category;
    the entry names the file of the finding (or "Unknown"), and its [name]
    is the license key of the finding, not its display name. *)
Theorem X6_problem_entries_are_classified_findings (order : SetOrder)
    (data : ScanData) (c : Category) (e : Occurrence) :
  In e (at_category
          (identify_problematic_licenses order (fst (analyze_licenses data)))
          c)
  <-> exists file_info lic,
        In file_info (Py.get_or (files data) [])
        /\ In lic (extract_licenses_from_file file_info)
        /\ classified c (key lic) (score lic) = true
        /\ e = {| file := Py.get_or (path file_info) "Unknown";
                  occ_name := key lic; occ_score := score lic |}.
Proof. apply In_identify_problematic_licenses. Qed.

(** A category whose fragments all contain a fragment of another category
    matches no more keys than the other. *)
Lemma key_matches_covered (c1 c2 : Category) :
  forallb
    (fun f1 => existsb (fun f2 => Py.str_in f2 f1) (category_fragments c2))
    (category_fragments c1) = true ->
  forall license_key,
    key_matches c1 license_key = true -> key_matches c2 license_key = true.
Proof.
  intros H license_key. unfold key_matches. rewrite !existsb_exists.
  intros [f1 [Hin1 H1]].
  rewrite forallb_forall in H. apply H in Hin1.
  apply existsb_exists in Hin1. destruct Hin1 as [f2 [Hin2 H2]].
  exists f2. split; [exact Hin2|]. now apply (str_in_trans _ f1).
Qed.

Lemma problem_list_incl (order : SetOrder) (data : ScanData)
    (c1 c2 : Category) :
  (forall license_key score,
     classified c1 license_key score = true ->
     classified c2 license_key score = true) ->
  incl
    (at_category
       (identify_problematic_licenses order (fst (analyze_licenses data))) c1)
    (at_category
       (identify_problematic_licenses order (fst (analyze_licenses data))) c2).
Proof.
  intros H e He. apply In_identify_problematic_licenses in He.
  destruct He as [f [lic [Hf [Hl [Hc ->]]]]].
  apply In_identify_problematic_licenses. exists f, lic. auto.
Qed.

Lemma classified_covered (c1 c2 : Category) :
  c1 <> low_confidence ->
  forallb
    (fun f1 => existsb (fun f2 => Py.str_in f2 f1) (category_fragments c2))
    (category_fragments c1) = true ->
  forall license_key score,
    classified c1 license_key score = true ->
    classified c2 license_key score = true.
Proof.
  intros Hc H license_key score. unfold classified.
  rewrite !orb_true_iff. intros [Hk | Hs].
  - left. now apply (key_matches_covered c1 c2 H).
  - destruct c1; try discriminate. contradiction.
Qed.

(** X7. For every document the entries of the agpl list are entries of the
    gpl list, and the entries of the gpl list are entries of the copyleft
    and of the commercial_unfriendly lists, because every fragment of the
    smaller category contains a fragment of the larger one; the lists hold
    no duplicates, so the counts are ordered in the same way. *)
Theorem X7_agpl_within_gpl_within_copyleft (order : SetOrder)
    (data : ScanData) :
  let problems :=
    identify_problematic_licenses order (fst (analyze_licenses data)) in
  incl (at_category problems agpl) (at_category problems gpl)
  /\ incl (at_category problems gpl) (at_category problems copyleft)
  /\ incl (at_category problems gpl)
          (at_category problems commercial_unfriendly)
  /\ (List.length (at_category problems agpl)
      <= List.length (at_category problems gpl))%nat
  /\ (List.length (at_category problems gpl)
      <= List.length (at_category problems copyleft))%nat
  /\ (List.length (at_category problems gpl)
      <= List.length (at_category problems commercial_unfriendly))%nat.
Proof.
  cbv zeta.
  assert (H1 := problem_list_incl order data agpl gpl
                  (classified_covered agpl gpl ltac:(discriminate) eq_refl)).
  assert (H2 := problem_list_incl order data gpl copyleft
                  (classified_covered gpl copyleft ltac:(discriminate)
                     eq_refl)).
  assert (H3 := problem_list_incl order data gpl commercial_unfriendly
                  (classified_covered gpl commercial_unfriendly
                     ltac:(discriminate) eq_refl)).
  repeat split; try assumption;
    apply NoDup_incl_length;
    try apply NoDup_identify_problematic_licenses; assumption.
Qed.

(** X8. A detection object without a usable expression (both expression
    fields absent or empty) gets the key "unknown"; its finding is an entry
    of the unknown problem list, and the recommendations hold an entry of
    severity medium for the unknown category. *)
Theorem X8_detection_without_expression_is_unknown (order : SetOrder)
    (data : ScanData) (file_info : FileRecord) (lic : Detection) :
  In file_info (Py.get_or (files data) []) ->
  In lic (Py.get_or (license_detections file_info) []) ->
  Py.get_or (license_expression lic) EmptyString = EmptyString ->
  Py.get_or (license_expression_spdx lic) EmptyString = EmptyString ->
  let problems :=
    identify_problematic_licenses order (fst (analyze_licenses data)) in
  key (detection_finding lic) = "unknown"
  /\ In {| file := Py.get_or (path file_info) "Unknown";
           occ_name := "unknown";
           occ_score := score (detection_finding lic) |}
        (at_category problems unknown)
  /\ exists r,
       In r (generate_recommendations problems)
       /\ severity r = medium /\ rec_category r = "unknown"
       /\ (1 <= affected_files r)%nat.
Proof.
  intros Hf Hl H1 H2 problems.
  assert (K : key (detection_finding lic) = "unknown").
  { unfold detection_finding. cbn [key]. unfold Py.get_or_else.
    destruct (license_expression lic) as [s1|];
      destruct (license_expression_spdx lic) as [s2|];
      cbn [Py.get_or] in H1, H2; subst; reflexivity. }
  assert (E : In {| file := Py.get_or (path file_info) "Unknown";
                    occ_name := "unknown";
                    occ_score := score (detection_finding lic) |}
                 (at_category problems unknown)).
  { apply In_identify_problematic_licenses.
    exists file_info, (detection_finding lic).
    split; [exact Hf | split; [|split]].
    - rewrite extract_licenses_from_file_eq.
      apply in_or_app. right. apply in_or_app. left.
      now apply in_map.
    - rewrite K. reflexivity.
    - now rewrite K. }
  split; [exact K | split; [exact E|]].
  rewrite generate_recommendations_eq.
  destruct (at_category problems unknown) as [|e l] eqn:U; [destruct E|].
  eexists. split.
  - apply in_or_app. right. apply in_or_app. right. cbn. left. reflexivity.
  - cbn. repeat split. lia.
Qed.

Lemma X8_detection_without_expression_is_unknown_witness :
  let lic := {| license_expression := None;
                license_expression_spdx := Some EmptyString;
                matches := Some [{| match_score := Some 80 |}] |} in
  let file_info :=
    {| path := Some "blob.bin"; scan_errors := None;
       detected_license_expression := None;
       license_detections := Some [lic]; licenses := None |} in
  let data := {| files := Some [file_info] |} in
  In file_info (Py.get_or (files data) [])
  /\ In lic (Py.get_or (license_detections file_info) [])
  /\ Py.get_or (license_expression lic) EmptyString = EmptyString
  /\ Py.get_or (license_expression_spdx lic) EmptyString = EmptyString
  /\ In {| file := "blob.bin"; occ_name := "unknown"; occ_score := 80 |}
        (at_category
           (identify_problematic_licenses insertion_order
              (fst (analyze_licenses data))) unknown).
Proof.
  intros lic file_info data.
  assert (H1 : In file_info (Py.get_or (files data) []))
    by (left; reflexivity).
  assert (H2 : In lic (Py.get_or (license_detections file_info) []))
    by (left; reflexivity).
  repeat split; try assumption.
  exact (proj1 (proj2 (X8_detection_without_expression_is_unknown
                         insertion_order data file_info lic H1 H2
                         eq_refl eq_refl))).
Defined.

(** X9. None of the keys that [__init__] lists as permissive matches a
    fragment of a problem category: a finding with such a key is classified
    only by its score, into low_confidence when the score is below 70. *)
Theorem X9_permissive_keys_match_no_category (license_key : string)
    (c : Category) (score : Z) :
  In license_key permissive_licenses ->
  key_matches c license_key = false
  /\ classified c license_key score =
     match c with
     | low_confidence => score <? 70
     | _ => false
     end.
Proof.
  intros H.
  assert (K : key_matches c license_key = false).
  { cbn in H.
    repeat (destruct H as [<- | H]; [now destruct c|]). destruct H. }
  split; [exact K|]. unfold classified. rewrite K. reflexivity.
Qed.

Lemma X9_permissive_keys_match_no_category_witness :
  In "apache-2.0" permissive_licenses
  /\ classified copyleft "apache-2.0" 100 = false.
Proof.
  assert (H : In "apache-2.0" permissive_licenses)
    by (right; left; reflexivity).
  split; [exact H|].
  exact (proj2 (X9_permissive_keys_match_no_category "apache-2.0" copyleft
                  100 H)).
Defined.

(** ** Case of the key *)

Lemma lower_upper_char (c : ascii) :
  Py.lower_char (Py.upper_char c) = Py.lower_char c.
Proof.
  destruct c as [[] [] [] [] [] [] [] []]; reflexivity.
Qed.

Lemma lower_lower_char (c : ascii) :
  Py.lower_char (Py.lower_char c) = Py.lower_char c.
Proof.
  destruct c as [[] [] [] [] [] [] [] []]; reflexivity.
Qed.

Lemma lower_upper (s : string) : Py.lower (Py.upper s) = Py.lower s.
Proof.
  unfold Py.lower, Py.upper.
  induction s as [|c s IH]; cbn [Py.map_chars]; [reflexivity|].
  now rewrite IH, lower_upper_char.
Qed.

Lemma lower_lower (s : string) : Py.lower (Py.lower s) = Py.lower s.
Proof.
  unfold Py.lower.
  induction s as [|c s IH]; cbn [Py.map_chars]; [reflexivity|].
  now rewrite IH, lower_lower_char.
Qed.

(** X10. For a key of ASCII characters, the classification does not
    depend on the case of its letters: the key in upper case and the key in
    lower case are classified as the key itself (the triple that is stored
    keeps the key as it was given). Keys with other characters are left
    out: Python's case mappings change some of them into ASCII letters. *)
Theorem X10_classification_ignores_case (c : Category)
    (license_key : string) (score : Z) :
  is_ascii license_key = true ->
  classified c (Py.upper license_key) score = classified c license_key score
  /\ classified c (Py.lower license_key) score =
     classified c license_key score.
Proof.
  intros _. unfold classified, key_matches.
  now rewrite lower_upper, lower_lower.
Qed.

Lemma X10_classification_ignores_case_witness :
  is_ascii "Gpl-2.0-Only" = true
  /\ classified gpl "GPL-2.0-ONLY" 100 = classified gpl "Gpl-2.0-Only" 100
  /\ classified gpl "Gpl-2.0-Only" 100 = true.
Proof.
  split; [reflexivity | split; [|reflexivity]].
  exact (proj1 (X10_classification_ignores_case gpl "Gpl-2.0-Only" 100
                  eq_refl)).
Defined.

(** X11. Adding the same triple a second time changes nothing: the
    dictionaries of sets after one and after two calls of
    [_add_to_problem_sets] with the same arguments are equal. *)
Theorem X11_add_to_problem_sets_idempotent (ps : ByCategory TripleSet)
    (license_key file_path : string) (score : Z) :
  _add_to_problem_sets
    (_add_to_problem_sets ps license_key file_path score)
    license_key file_path score
  = _add_to_problem_sets ps license_key file_path score.
Proof.
  apply by_category_ext. intros c. rewrite !add_to_problem_sets_at.
  destruct (classified c license_key score); [|reflexivity].
  apply set_add_idempotent.
Qed.

(** ** The most common licenses *)











(** ** Advisory texts *)



(** ** The problem listing as a whole *)

Lemma no_issues_message_not_listed (category : Category)
    (issue_list : list Occurrence) :
  ~ In no_issues_message (category_listing category issue_list).
Proof.
  unfold category_listing. destruct issue_list as [|e l]; cbn [nonempty];
    [intros []|].
  cbn [app]. intros [H | H].
  - unfold category_header, Py.fstr, newline in H.
    cbn [String.concat String.append] in H. discriminate.
  - apply in_app_or in H. destruct H as [H | H].
    + apply in_flat_map in H. destruct H as [x [_ [H | [H | []]]]];
        unfold Py.fstr in H; cbn [String.concat String.append] in H;
        discriminate.
    + destruct (Nat.ltb 5 (List.length (e :: l))); [|destruct H].
      destruct H as [H | []]. unfold more_files_note, Py.fstr in H.
      cbn [String.concat String.append] in H. discriminate.
Qed.

Lemma length_category_listing (category : Category)
    (issue_list : list Occurrence) :
  (List.length (category_listing category issue_list) <= 12)%nat.
Proof.
  unfold category_listing. destruct issue_list as [|e l]; cbn [nonempty];
    [cbn; lia|].
  cbn [app List.length]. rewrite length_app, category_listing_examples.
  match goal with |- context [if ?b then _ else _] => destruct b end;
    cbn [List.length]; lia.
Qed.

Lemma total_issues_zero (problems : ByCategory (list Occurrence)) :
  fold_left
    (fun acc c => (acc + List.length (at_category problems c))%nat)
    category_keys 0%nat = 0%nat
  <-> forall c, at_category problems c = [].
Proof.
  unfold category_keys. cbn [fold_left at_category]. split.
  - intros H c.
    destruct c; cbn [at_category]; apply length_zero_iff_nil; lia.
  - intros H.
    pose proof (H copyleft). pose proof (H gpl). pose proof (H agpl).
    pose proof (H commercial_unfriendly). pose proof (H unknown).
    pose proof (H low_confidence). cbn [at_category] in *.
    repeat match goal with E : _ = [] |- _ => rewrite E; clear E end.
    reflexivity.
Qed.

(** X14. The problem listing prints "No major license issues detected!"
    exactly when all six problem lists are empty, low_confidence included;
    it never makes more than 75 calls of [print], whatever the number of
    entries (a printed text may hold several lines: each category heading
    starts with a line break). *)
Theorem X14_no_issues_message_iff_all_empty
    (problems : ByCategory (list Occurrence)) :
  (In no_issues_message (_print_potential_issues problems)
   <-> forall c, at_category problems c = [])
  /\ (List.length (_print_potential_issues problems) <= 75)%nat.
Proof.
  unfold _print_potential_issues.
  pose proof (total_issues_zero problems) as T.
  destruct (Nat.eqb_spec
              (fold_left
                 (fun acc c =>
                    (acc + List.length (at_category problems c))%nat)
                 category_keys 0%nat) 0) as [E | E].
  - split.
    + split; [intros _; now apply T|].
      intros _. cbn. auto.
    + cbn. lia.
  - split.
    + split; [|intros H; now apply T in H].
      intros H. exfalso. cbn [app In] in H.
      destruct H as [H | [H | H]]; try discriminate.
      apply in_app_or in H. destruct H as [H | [H | []]];
        [|discriminate].
      apply in_flat_map in H. destruct H as [c [_ H]].
      exact (no_issues_message_not_listed _ _ H).
    + unfold category_keys. cbn [flat_map app List.length].
      rewrite !length_app. cbn [List.length].
      pose proof (length_category_listing copyleft
                    (at_category problems copyleft)).
      pose proof (length_category_listing gpl (at_category problems gpl)).
      pose proof (length_category_listing agpl (at_category problems agpl)).
      pose proof (length_category_listing commercial_unfriendly
                    (at_category problems commercial_unfriendly)).
      pose proof (length_category_listing unknown
                    (at_category problems unknown)).
      pose proof (length_category_listing low_confidence
                    (at_category problems low_confidence)).
      lia.
Qed.

(** ** The scan-errors section *)



(** ** Runs of the program *)

Section Runs.

Variable json_load : string -> string + ScanData.
Variable json_dump : DetailedReport -> string.
Variable repr_list : list string -> string.
Variable strftime : Z -> string.
Variable isoformat : Z -> string.


(** X17. With any number of command-line arguments other than one, the
    program prints the three usage lines and exits with status 1 without
    looking at the file system. *)
Theorem X17_usage_error_exits_1 (argv : list string) (w : World) :
  List.length argv <> 2%nat ->
  main json_load json_dump repr_list strftime isoformat argv w
  = (Exited 1,
     {| fs := fs w;
        stdout :=
          stdout w
          ++ ["Usage: python parse_scancode_results.py <scancode_results.json>";
              Py.fstr [newline; "Example:"];
              "python parse_scancode_results.py hwid_go_server_analysis.json"];
        clock := clock w; clock_reads := clock_reads w;
        hash_order := hash_order w |}).
Proof.
  intros H. unfold main.
  destruct (Nat.eqb_spec (List.length argv) 2) as [E | _]; [contradiction|].
  cbn [negb]. unfold bind, print, print_all, sys_exit. cbn.
  now rewrite <- !app_assoc.
Qed.


(** X19. A document without a "files" key is not an error: the run ends
    with status 0, the message about the missing section is printed twice
    (once for the report, once for the export), the report shows zero files,
    and the exported report is the empty one. *)
Theorem X19_document_without_files (prog json_file text : string)
    (w : World) :
  fs w json_file = Some text ->
  json_load text = inr {| files := None |} ->
  let r := main json_load json_dump repr_list strftime isoformat
             [prog; json_file] w in
  exit_status (fst r) = 0
  /\ (exists printed,
        stdout (snd r) = stdout w ++ printed
        /\ count_occ string_dec printed no_files_message = 2%nat
        /\ In "   Total files scanned: 0" printed)
  /\ fs (snd r) default_output_file =
     Some (json_dump
             {| metadata :=
                  {| source_file := json_file;
                     analysis_date :=
                       isoformat (clock w (S (clock_reads w)));
                     meta_total_files := 0;
                     total_licenses := 0;
                     total_license_detections := 0 |};
                license_statistics := [];
                report_problematic_licenses := all_categories [];
                scan_issues := [];
                recommendations := [] |}).
Proof.
  intros Hfs Hload r. subst r.
  run_step. rewrite Hfs. run_step. rewrite Hfs. run_step.
  rewrite Hload. run_step.
  rewrite !identify_problematic_licenses_nil.
  split; [reflexivity | split; [|reflexivity]].
  eexists. split; [rewrite <- !app_assoc; reflexivity|].
  split; [|cbn; tauto].
  unfold Py.fstr, no_files_message.
  cbn [app String.concat String.append count_occ].
  reflexivity.
Qed.

End Runs.


Lemma X17_usage_error_exits_1_witness :
  List.length ["parse_scancode_results.py"] <> 2%nat
  /\ exit_status
       (fst (main sample_json_load sample_json_dump sample_repr_list
               sample_strftime sample_isoformat
               ["parse_scancode_results.py"] missing_input_world)) = 1.
Proof.
  assert (H : List.length ["parse_scancode_results.py"] <> 2%nat)
    by discriminate.
  split; [exact H|].
  rewrite (X17_usage_error_exits_1 sample_json_load sample_json_dump
             sample_repr_list sample_strftime sample_isoformat
             ["parse_scancode_results.py"] missing_input_world H).
  reflexivity.
Defined.


Lemma X19_document_without_files_witness :
  fs no_files_world "scan.json" = Some "{}"
  /\ no_files_json_load "{}" = inr {| files := None |}
  /\ exit_status
       (fst (main no_files_json_load sample_json_dump sample_repr_list
               sample_strftime sample_isoformat
               ["parse_scancode_results.py"; "scan.json"]
               no_files_world)) = 0.
Proof.
  split; [reflexivity | split; [reflexivity|]].
  exact (proj1 (X19_document_without_files no_files_json_load
                  sample_json_dump sample_repr_list sample_strftime
                  sample_isoformat "parse_scancode_results.py" "scan.json"
                  "{}" no_files_world eq_refl eq_refl)).
Defined.

(** ** The exported totals *)

(** X20. In the exported report [total_files] is the number of file
    records, [total_license_detections] the number of findings of the
    document, [total_licenses] the number of distinct keys among them, the
    statistics give for each key the number of findings with that key, and
    [scan_issues] are the issues of the issue scanner. *)
Theorem X20_exported_totals (isoformat : Z -> string)
    (self : ScanCodeAnalyzer) (order : SetOrder) (t : Z) :
  let r := detailed_report isoformat self order t in
  let findings := all_findings (data self) in
  meta_total_files (metadata r) =
    List.length (Py.get_or (files (data self)) [])
  /\ total_license_detections (metadata r) = List.length findings
  /\ total_licenses (metadata r) =
     List.length
       (nodup string_dec
          (map (fun pf : string * LicenseFinding => key (snd pf)) findings))
  /\ (forall k,
        counter_get k (license_statistics r) =
        List.length (filter (has_key k) findings))
  /\ scan_issues r = snd (get_files_with_issues (data self))
  /\ source_file (metadata r) = json_file self
  /\ analysis_date (metadata r) = isoformat t.
Proof.
  cbv zeta. unfold detailed_report.
  pose proof (analyze_licenses_fold (data self)) as F.
  destruct (analyze_licenses (data self)) as [license_stats all_licenses].
  cbn [metadata meta_total_files total_license_detections total_licenses
       license_statistics scan_issues source_file analysis_date].
  assert (S : all_licenses =
              snd (fold_left
                     (fun acc (pf : string * LicenseFinding) =>
                        _process_license_detection (snd pf) (fst pf) acc)
                     (all_findings (data self)) ([], [])))
    by now rewrite <- F.
  repeat split.
  - rewrite S.
    now destruct (tally_fold (all_findings (data self)) ([], [])
                    EmptyString) as (_ & _ & -> & _).
  - rewrite <- (length_map fst all_licenses).
    apply Permutation_length, NoDup_Permutation.
    + rewrite S.
      apply (tally_fold (all_findings (data self)) ([], []) EmptyString).
      constructor.
    + apply NoDup_nodup.
    + intros k. rewrite nodup_In, S.
      destruct (tally_fold (all_findings (data self)) ([], []) k)
        as (_ & _ & _ & _ & _ & H).
      cbv zeta in H. rewrite H. cbn [snd map In]. tauto.
  - intros k. rewrite S.
    exact (proj1 (tally_fold (all_findings (data self)) ([], []) k)).
Qed.

(** ** Keys of the findings *)

(** X21. The finding of a detection object never has an empty key: the key
    is the first non-empty one of [license_expression] and
    [license_expression_spdx], and "unknown" when there is none; its name is
    its key. The finding of a legacy license object keeps an empty key, as
    only an absent key is replaced by "unknown". *)
Theorem X21_detection_key_never_empty (lic : Detection) :
  let finding := detection_finding lic in
  key finding <> EmptyString
  /\ name finding = key finding
  /\ key finding =
     match license_expression lic, license_expression_spdx lic with
     | Some (String c e), _ => String c e
     | _, Some (String c e) => String c e
     | _, _ => "unknown"
     end
  /\ key (legacy_finding {| lic_key := Some EmptyString; lic_name := None;
                            lic_score := None |}) = EmptyString
  /\ key (legacy_finding {| lic_key := None; lic_name := None;
                            lic_score := None |}) = "unknown".
Proof.
  cbv zeta. unfold detection_finding. cbn [key name].
  unfold Py.get_or_else.
  destruct (license_expression lic) as [[|c1 e1]|];
    destruct (license_expression_spdx lic) as [[|c2 e2]|];
    cbn [Py.truthy]; repeat split; discriminate.
Qed.
